(** * aced_etl_pod: the FHIR import / export job

    A shallow embedding of [etl-job/fhir_import.py] and
    [etl-job/fhir_import_export.py].  Both scripts are single-pass
    orchestration code: they read a user document and an input document,
    test membership of a few strings in the user document, shell out to a
    download tool, an unzip tool and a load script, and print one JSON
    line.

    The embedding keeps the Python control flow.  Mutation of the [output]
    dict and every call that leaves the process (subprocesses, directory
    listing, the FHIR store, the bucket upload, [print]) are threaded
    through a state monad whose state carries the output record and the
    trace of external events.  A raised exception keeps the state reached
    so far, as in Python. *)

From Stdlib Require Import String Ascii List ZArith Bool Lia RelationClasses.
Import ListNotations.
Local Open Scope string_scope.
Local Open Scope list_scope.

Set Warnings "-register-all".

(** ** Python values

    The documents the scripts index ([user], [input_data], the result of
    [cp]) come from [json.loads] / [.json()]: they are JSON values.  A
    dict is an association list; [json.loads] keeps the last of duplicate
    keys, so the lists handled here are read with first-match lookup on a
    list without duplicates.  Numbers are integers (a JSON number with a
    fractional part is outside the model).  A string holds the UTF-8
    bytes of the Python [str]. *)

Inductive json : Type :=
| JNull  : json
| JBool  : bool -> json
| JNum   : Z -> json
| JStr   : string -> json
| JArr   : list json -> json
| JObj   : list (string * json) -> json.

(** Exceptions the scripts can raise. *)
Inductive exn : Type :=
| AssertionError (msg : string)
| KeyError       (key : string)
| TypeError
| AttributeError
| ValueError
| OSError
| Exception      (msg : string).

Definition result (A : Type) : Type := (exn + A)%type.
Abbreviation Ok  := (@inr exn _).
Abbreviation Err := (@inl exn _).

(** *** Strings *)

Definition dash : ascii := "-"%char.

(** [needle in hay] for two [str]. *)
Fixpoint substringb (needle hay : string) : bool :=
  String.prefix needle hay ||
  match hay with
  | EmptyString => false
  | String _ t  => substringb needle t
  end.

(** [s.split(sep)] for a one-character separator: one more part than
    there are separators, empty parts kept. *)
Fixpoint split_on (sep : ascii) (s : string) : list string :=
  match s with
  | EmptyString => [EmptyString]
  | String c t  =>
      if Ascii.eqb c sep then EmptyString :: split_on sep t
      else match split_on sep t with
           | []        => [String c EmptyString]
           | p :: rest => String c p :: rest
           end
  end.

Fixpoint count_char (c : ascii) (s : string) : nat :=
  match s with
  | EmptyString => 0
  | String d t  => (if Ascii.eqb d c then 1 else 0) + count_char c t
  end.

(** ASCII white space as [str.isspace] sees it. *)
Definition is_space (c : ascii) : bool :=
  let n := nat_of_ascii c in
  (((9 <=? n) && (n <=? 13)) || ((28 <=? n) && (n <=? 32)))%nat.

(** The number of bytes of the white-space character at the head of [s],
    0 when [s] does not start with one.  A string holds the UTF-8 bytes
    of the Python [str]; the characters [str.isspace] accepts are the
    ASCII ones above and U+0085, U+00A0, U+1680, U+2000 to U+200A,
    U+2028, U+2029, U+202F, U+205F and U+3000. *)
Definition space_width (s : string) : nat :=
  match s with
  | EmptyString => 0
  | String c t =>
      let n := nat_of_ascii c in
      if is_space c then 1
      else if (n =? 194)%nat
      then match t with
           | String d _ =>
               let m := nat_of_ascii d in
               if ((m =? 133) || (m =? 160))%nat then 2 else 0
           | EmptyString => 0
           end
      else if ((n =? 225) || (n =? 226) || (n =? 227))%nat
      then match t with
           | String d (String e _) =>
               let m := nat_of_ascii d in
               let k := nat_of_ascii e in
               if ((n =? 225) && (m =? 154) && (k =? 128))%nat then 3
               else if ((n =? 226) && (m =? 128) &&
                        (((128 <=? k) && (k <=? 138)) || (k =? 168) ||
                         (k =? 169) || (k =? 175)))%nat then 3
               else if ((n =? 226) && (m =? 129) && (k =? 159))%nat then 3
               else if ((n =? 227) && (m =? 128) && (k =? 128))%nat then 3
               else 0
           | _ => 0
           end
      else 0
  end.

(** [s.split()]: split on runs of white space, no empty parts.  [skip]
    counts the bytes still to pass of a white-space character of several
    bytes. *)
Fixpoint split_ws_aux (skip : nat) (cur : string) (s : string) : list string :=
  match s with
  | EmptyString => if String.eqb cur "" then [] else [cur]
  | String c t  =>
      match skip with
      | S k => split_ws_aux k cur t
      | O =>
          match space_width (String c t) with
          | O => split_ws_aux 0 (cur ++ String c EmptyString) t
          | S k => (if String.eqb cur "" then [] else [cur]) ++ split_ws_aux k "" t
          end
      end
  end.

Definition split_ws (s : string) : list string := split_ws_aux 0 "" s.

(** [s.lower()] on the ASCII letters. *)
Definition lower_ascii (c : ascii) : ascii :=
  let n := nat_of_ascii c in
  if ((65 <=? n) && (n <=? 90))%nat then ascii_of_nat (n + 32) else c.

Fixpoint lower (s : string) : string :=
  match s with
  | EmptyString => EmptyString
  | String c t  => String (lower_ascii c) (lower t)
  end.

(** *** Operators on values *)

Fixpoint lookup (k : string) (kvs : list (string * json)) : option json :=
  match kvs with
  | [] => None
  | (k', v) :: rest => if String.eqb k k' then Some v else lookup k rest
  end.

Definition has_key (k : string) (kvs : list (string * json)) : bool :=
  match lookup k kvs with Some _ => true | None => false end.

(** [v == s] for a [str] [s]. *)
Definition eq_str (s : string) (v : json) : bool :=
  match v with
  | JStr s' => String.eqb s s'
  | _ => false
  end.

(** Truth value of a value ([if v:], [assert v]). *)
Definition truthy (v : json) : bool :=
  match v with
  | JNull => false
  | JBool b => b
  | JNum n => negb (Z.eqb n 0)
  | JStr s => negb (String.eqb s "")
  | JArr l => match l with [] => false | _ => true end
  | JObj kvs => match kvs with [] => false | _ => true end
  end.

(** [s in container] for a [str] [s]. *)
Definition str_in (s : string) (container : json) : result bool :=
  match container with
  | JArr l   => Ok (existsb (eq_str s) l)
  | JObj kvs => Ok (has_key s kvs)
  | JStr h   => Ok (substringb s h)
  | JNull | JBool _ | JNum _ => Err TypeError
  end.

(** [container[key]] for a [str] key. *)
Definition getitem (container : json) (key : string) : result json :=
  match container with
  | JObj kvs => match lookup key kvs with
                | Some v => Ok v
                | None => Err (KeyError key)
                end
  | _ => Err TypeError
  end.

(** [d.get(key, None)]. *)
Definition dict_get (d : json) (key : string) : result json :=
  match d with
  | JObj kvs => match lookup key kvs with
                | Some v => Ok v
                | None => Ok JNull
                end
  | _ => Err AttributeError
  end.

(** A permission as it appears in the [authz] lists of the user document:
    the dict [{'method': m, 'service': s}]. *)
Record permission : Type := { p_method : string; p_service : string }.

(** [v == {'method': m, 'service': s}]: a dict with exactly these two
    keys and these two values. *)
Definition eq_permission (p : permission) (v : json) : bool :=
  match v with
  | JObj kvs =>
      match lookup "method" kvs, lookup "service" kvs with
      | Some m, Some s =>
          eq_str (p_method p) m && eq_str (p_service p) s &&
          forallb (fun kv => String.eqb (fst kv) "method" ||
                             String.eqb (fst kv) "service") kvs
      | _, _ => false
      end
  | _ => false
  end.

(** [{'method': m, 'service': s} in container]: a dict is not hashable
    and is no substring. *)
Definition permission_in (p : permission) (container : json) : result bool :=
  match container with
  | JArr l => Ok (existsb (eq_permission p) l)
  | _ => Err TypeError
  end.

(** ** The world outside the process

    Everything the scripts reach outside their own code: the environment
    variables, the libraries [gen3] and [aced_submission], the programs
    run through [subprocess.run], the file system, and the two Python
    library functions whose exact text output no property below depends
    on ([format] of a value that is not a [str], and [json.dumps]). *)

Record world : Type := {
  (** [os.environ] *)
  environ    : list (string * string);
  (** [json.loads] *)
  json_loads : string -> result json;
  (** [Gen3Auth(...).curl('/user/user').json()], by the access token
      used ([None]: the refresh token of the credentials file) *)
  gen3_user  : option string -> result json;
  (** a child process, by command line and by the variables added to its
      environment: it cannot be started, or it ends with an exit code and
      what it wrote to stdout and stderr *)
  spawn      : list string -> list (string * string) ->
               result (Z * string * string);
  (** [pathlib.Path(path).glob('*')], as [str] *)
  glob       : string -> list string;
  (** [aced_submission.fhir_store.fhir_get(project_id, path, DEFAULT_ELASTIC)] *)
  fhir_get   : string -> string -> result (list json);
  (** [gen3_util.meta.uploader.cp(config, from_, project_id, ignore_state=False)] *)
  cp         : string -> string -> result json;
  (** [format(v)] for a value that is not a [str] *)
  py_format  : json -> string;
  (** [json.dumps(v, separators=(',', ':'))] *)
  json_dumps : json -> string
}.

Fixpoint env_lookup (k : string) (env : list (string * string)) : option string :=
  match env with
  | [] => None
  | (k', v) :: rest => if String.eqb k k' then Some v else env_lookup k rest
  end.

(** External events of a run, in the order they happen. *)
Inductive event : Type :=
| ESubprocess (cmd : list string) (env : list (string * string))
| EGlob       (path : string)
| EFhirGet    (project_id study_path : string)
| ECp         (from_ project_id : string)
| EPrint      (line : string).

(** ** The output record

    [output = {'user': user, 'files': [], 'logs': []}], to which the
    export path adds the key ['object_id']. *)

Record output : Type := mkOutput {
  o_user      : json;          (* output['user'] *)
  o_files     : list string;   (* output['files'] *)
  o_logs      : list json;     (* output['logs'] *)
  o_object_id : option json    (* output['object_id'], when the key is set *)
}.

Definition output_json (o : output) : json :=
  JObj ([("user", o_user o);
         ("files", JArr (map JStr (o_files o)));
         ("logs", JArr (o_logs o))]
        ++ match o_object_id o with
           | Some v => [("object_id", v)]
           | None => []
           end).

(** Keys of a serialized dict. *)
Definition keys (v : json) : list string :=
  match v with
  | JObj kvs => map fst kvs
  | _ => []
  end.

(** [v[k]] of a serialized dict, when it has the key. *)
Definition field (k : string) (v : json) : option json :=
  match v with
  | JObj kvs => lookup k kvs
  | _ => None
  end.

(** ** State and exceptions *)

Record state : Type := mkState {
  out   : output;
  trace : list event
}.

Definition M (A : Type) : Type := state -> result A * state.

Definition ret {A : Type} (a : A) : M A := fun s => (Ok a, s).

Definition raise {A : Type} (e : exn) : M A := fun s => (Err e, s).

Definition bind {A B : Type} (m : M A) (k : A -> M B) : M B :=
  fun s => match m s with
           | (inr a, s') => k a s'
           | (inl e, s') => (inl e, s')
           end.

Declare Scope py_scope.
Delimit Scope py_scope with py.
Notation "x <- m ;; k" := (bind m (fun x => k))
  (at level 61, m at next level, right associativity) : py_scope.
Notation "m ;; k" := (bind m (fun _ => k))
  (at level 61, right associativity) : py_scope.
Local Open Scope py_scope.

Definition lift {A : Type} (r : result A) : M A := fun s => (r, s).

(** [assert cond, msg] *)
Definition assert_ (cond : bool) (msg : string) : M unit :=
  if cond then ret tt else raise (AssertionError msg).

Definition emit (ev : event) : M unit :=
  fun s => (Ok tt, mkState (out s) (trace s ++ [ev])).

(** [output = {'user': user, 'files': [], 'logs': []}] *)
Definition new_output (u : json) : M unit :=
  fun s => (Ok tt, mkState (mkOutput u [] [] None) (trace s)).

(** [output['logs'].append(line)] *)
Definition logs_append (line : json) : M unit :=
  fun s => let o := out s in
           (Ok tt, mkState (mkOutput (o_user o) (o_files o) (o_logs o ++ [line]) (o_object_id o))
                           (trace s)).

(** [output['logs'].extend(lines)] *)
Definition logs_extend (lines : list json) : M unit :=
  fun s => let o := out s in
           (Ok tt, mkState (mkOutput (o_user o) (o_files o) (o_logs o ++ lines) (o_object_id o))
                           (trace s)).

(** [output['files'].append(path)] *)
Definition files_append (path : string) : M unit :=
  fun s => let o := out s in
           (Ok tt, mkState (mkOutput (o_user o) (o_files o ++ [path]) (o_logs o) (o_object_id o))
                           (trace s)).

(** [output['object_id'] = v] *)
Definition set_object_id (v : json) : M unit :=
  fun s => let o := out s in
           (Ok tt, mkState (mkOutput (o_user o) (o_files o) (o_logs o) (Some v))
                           (trace s)).

(** [output['logs'].append(f"...")] *)
Definition log (line : string) : M unit := logs_append (JStr line).

(** [for x in xs: body(x)] *)
Fixpoint for_each {A : Type} (xs : list A) (body : A -> M unit) : M unit :=
  match xs with
  | [] => ret tt
  | x :: rest => body x ;; for_each rest body
  end.

(** [f"{b}"] for a [bool] *)
Definition str_of_bool (b : bool) : string := if b then "True" else "False".

(** The state a process starts in: nothing has happened, and no output
    record exists until [_main] builds one. *)
Definition initial : state := mkState (mkOutput JNull [] [] None) [].

(** [for x in xs: acc = body(x, acc)]: a loop that updates a local. *)
Fixpoint for_acc {A S : Type} (xs : list A) (acc : S) (body : A -> S -> M S) : M S :=
  match xs with
  | [] => ret acc
  | x :: rest => acc' <- body x acc ;; for_acc rest acc' body
  end.

(** ** Functions shared by the two scripts

    [fhir_import.py] and [fhir_import_export.py] define [_get_token],
    [_auth], [_user], [_input_data], [_get_program_project],
    [_get_object_id], [_can_create], [_download_and_unzip] and [_load_all]
    with the same text.  The [output] argument of the Python functions is
    the one output dict of the run: here it is the [out] component of the
    state. *)

Section Job.

Variable w : world.

(** [f"{v}"] *)
Definition py_str (v : json) : string :=
  match v with
  | JStr s => s
  | _ => py_format w v
  end.

(** [os.environ.get('ACCESS_TOKEN', None)] *)
Definition _get_token : M (option string) :=
  ret (env_lookup "ACCESS_TOKEN" (environ w)).

(** [_user(_auth(access_token))]: the access token is used when it is
    truthy, the stored credentials otherwise. *)
Definition _user (access_token : option string) : M json :=
  match access_token with
  | Some t => if String.eqb t "" then lift (gen3_user w None)
              else lift (gen3_user w (Some t))
  | None => lift (gen3_user w None)
  end.

Definition _input_data : M json :=
  assert_ (match env_lookup "INPUT_DATA" (environ w) with
           | Some _ => true | None => false end)
          "INPUT_DATA not found in environment" ;;
  match env_lookup "INPUT_DATA" (environ w) with
  | Some text => lift (json_loads w text)
  | None => raise (KeyError "INPUT_DATA")
  end.

(** [v.split('-')] *)
Definition py_split_dash (v : json) : M (list string) :=
  match v with
  | JStr s => ret (split_on dash s)
  | _ => raise AttributeError
  end.

Definition _get_program_project (input_data : json) : M (list string) :=
  has <- lift (str_in "project_id" input_data) ;;
  assert_ has "project_id not found in INPUT_DATA" ;;
  project_id <- lift (getitem input_data "project_id") ;;
  has_dash <- lift (str_in "-" project_id) ;;
  assert_ has_dash "project_id must be in the format <program>-<project>" ;;
  project_id <- lift (getitem input_data "project_id") ;;
  py_split_dash project_id.

(** [program, project = parts] *)
Definition unpack2 (parts : list string) : M (string * string) :=
  match parts with
  | [a; b] => ret (a, b)
  | _ => raise ValueError
  end.

Definition _get_object_id (input_data : json) : M json :=
  lift (dict_get input_data "object_id").

Definition sheepdog_any_method : permission :=
  {| p_method := "*"; p_service := "sheepdog" |}.

Definition _can_create (program : string) (user : json) : M bool :=
  let can_create := true in
  resources <- lift (getitem user "resources") ;;
  found <- lift (str_in ("/programs/" ++ program) resources) ;;
  can_create <-
    (if negb found
     then log ("/programs/" ++ program ++ " not found in user resources") ;;
          ret false
     else ret can_create) ;;
  let required_resources :=
    ["/services/sheepdog/submission/program";
     "/services/sheepdog/submission/project";
     ("/programs/" ++ program ++ "/projects")%string] in
  can_create <-
    for_acc required_resources can_create (fun required_resource can_create =>
      resources <- lift (getitem user "resources") ;;
      found <- lift (str_in required_resource resources) ;;
      if negb found
      then log (required_resource ++ " not found in user resources") ;;
           ret false
      else log ("HAS RESOURCE " ++ required_resource) ;;
           ret can_create) ;;
  let required_services := [("/programs/" ++ program ++ "/projects")%string] in
  can_create <-
    for_acc required_services can_create (fun required_service can_create =>
      authz <- lift (getitem user "authz") ;;
      found <- lift (str_in required_service authz) ;;
      if negb found
      then log (required_service ++ " not found in user authz") ;;
           ret false
      else
        authz <- lift (getitem user "authz") ;;
        granted <- lift (getitem authz required_service) ;;
        found <- lift (permission_in sheepdog_any_method granted) ;;
        if negb found
        then log ("sheepdog not found in user authz for " ++ required_service) ;;
             ret false
        else log ("HAS SERVICE sheepdog on resource " ++ required_service) ;;
             ret can_create) ;;
  ret can_create.

(** The result of [subprocess.run]. *)
Record CompletedProcess : Type := {
  returncode : Z;
  stdout     : option string;
  stderr     : option string
}.

(** [subprocess.run(cmd, env=..., capture_output=...)]: the call returns
    when the child has ended.  Without [capture_output] the two streams
    of the result are [None]. *)
Definition subprocess_run (cmd : list string) (env : list (string * string))
           (capture_output : bool) : M CompletedProcess :=
  emit (ESubprocess cmd env) ;;
  r <- lift (spawn w cmd env) ;;
  let '(code, sout, serr) := r in
  ret {| returncode := code;
         stdout := if capture_output then Some sout else None;
         stderr := if capture_output then Some serr else None |}.

(** [if stream: output['logs'].append(stream.read().decode())]: a stream
    that is a non-empty [str] has no [read]. *)
Definition log_stream (stream : option string) : M unit :=
  match stream with
  | Some text => if String.eqb text "" then ret tt else raise AttributeError
  | None => ret tt
  end.

Definition _download_and_unzip (object_id : json) (file_path : string) : M bool :=
  let cmd := split_ws ("gen3_util files cp " ++ py_str object_id
                       ++ " /tmp/" ++ py_str object_id) in
  result <- subprocess_run cmd [] false ;;
  if negb (Z.eqb (returncode result) 0)
  then
    log ("ERROR DOWNLOADING " ++ py_str object_id ++ " /tmp/" ++ py_str object_id) ;;
    log_stream (stderr result) ;;
    log_stream (stdout result) ;;
    ret false
  else
    log ("DOWNLOADED " ++ py_str object_id ++ " " ++ file_path) ;;
    let cmd := split_ws ("unzip -o -j /tmp/" ++ py_str object_id
                         ++ "/*.zip -d " ++ file_path) in
    result <- subprocess_run cmd [] false ;;
    if negb (Z.eqb (returncode result) 0)
    then
      log ("ERROR UNZIPPING /tmp/" ++ py_str object_id) ;;
      log_stream (stderr result) ;;
      log_stream (stdout result) ;;
      ret false
    else
      log ("UNZIPPED " ++ file_path) ;;
      ret true.

(** [result.stderr] and [result.stdout] of a captured run in text mode. *)
Definition captured (stream : option string) : json :=
  match stream with
  | Some text => JStr text
  | None => JNull
  end.

Definition _load_all (study project_id : string) : M bool :=
  let cmd := split_ws "./load_all" in
  log "LOADING: ['./load_all']" ;;
  let my_env :=
    [("study", study);
     ("project_id", project_id);
     ("schema", "https://aced-public.s3.us-west-2.amazonaws.com/aced-test.json")] in
  result <- subprocess_run cmd my_env true ;;
  if negb (Z.eqb (returncode result) 0)
  then
    log ("ERROR LOADING " ++ study) ;;
    logs_append (captured (stderr result)) ;;
    logs_append (captured (stdout result)) ;;
    ret false
  else
    log ("LOADED " ++ study) ;;
    logs_append (captured (stderr result)) ;;
    logs_append (captured (stdout result)) ;;
    ret true.

(** [print(f"[out] {json.dumps(output, separators=(',', ':'))}")] *)
Definition print_out : M unit :=
  fun s => emit (EPrint ("[out] " ++ json_dumps w (output_json (out s)))) s.

(** The import pipeline: the body of [_main] in [fhir_import.py] after the
    project id is parsed, and the whole of [_put] in
    [fhir_import_export.py]. *)
Definition import_steps (input_data : json) (program project : string)
           (user : json) : M unit :=
  can_create <- _can_create program user ;;
  log ("CAN CREATE: " ++ str_of_bool can_create) ;;
  let file_path := ("/root/studies/" ++ project ++ "/")%string in
  if can_create
  then
    object_id <- _get_object_id input_data ;;
    if truthy object_id
    then
      ok <- _download_and_unzip object_id file_path ;;
      if ok
      then
        emit (EGlob file_path) ;;
        for_each (glob w file_path) files_append ;;
        _ <- _load_all project (program ++ "-" ++ project)%string ;;
        ret tt
      else ret tt
    else log "OBJECT ID NOT FOUND"
  else ret tt.

(** [v.lower()] *)
Definition py_lower (v : json) : M string :=
  match v with
  | JStr s => ret (lower s)
  | _ => raise AttributeError
  end.

End Job.

(** ** [fhir_import.py] *)

Module fhir_import.

Definition _main (w : world) : M unit :=
  token <- _get_token w ;;
  user <- _user w token ;;
  new_output user ;;
  input_data <- _input_data w ;;
  parts <- _get_program_project input_data ;;
  pp <- unpack2 parts ;;
  let '(program, project) := pp in
  import_steps w input_data program project user ;;
  print_out w.

End fhir_import.

(** ** [fhir_import_export.py] *)

Module fhir_import_export.

Definition read_storage_any_service : permission :=
  {| p_method := "read-storage"; p_service := "*" |}.

Definition _can_read (program project : string) (user : json) : M bool :=
  let can_read := true in
  resources <- lift (getitem user "resources") ;;
  found <- lift (str_in ("/programs/" ++ program) resources) ;;
  can_read <-
    (if negb found
     then log ("/programs/" ++ program ++ " not found in user resources") ;;
          ret false
     else ret can_read) ;;
  let required_resources :=
    [("/programs/" ++ program ++ "/projects/" ++ project)%string] in
  can_read <-
    for_acc required_resources can_read (fun required_resource can_read =>
      resources <- lift (getitem user "resources") ;;
      found <- lift (str_in required_resource resources) ;;
      if negb found
      then log (required_resource ++ " not found in user resources") ;;
           ret false
      else log ("HAS RESOURCE " ++ required_resource) ;;
           ret can_read) ;;
  let required_services :=
    [("/programs/" ++ program ++ "/projects/" ++ project)%string] in
  can_read <-
    for_acc required_services can_read (fun required_service can_read =>
      authz <- lift (getitem user "authz") ;;
      found <- lift (str_in required_service authz) ;;
      if negb found
      then log (required_service ++ " not found in user authz") ;;
           ret false
      else
        authz <- lift (getitem user "authz") ;;
        granted <- lift (getitem authz required_service) ;;
        found <- lift (permission_in read_storage_any_service granted) ;;
        if negb found
        then log ("read-storage not found in user authz for " ++ required_service) ;;
             ret false
        else log ("HAS SERVICE read-storage on resource " ++ required_service) ;;
             ret can_read) ;;
  ret can_read.

(** Returns the object id, [None] when the user may not read. *)
Definition _get (w : world) (input_data : json) (program project : string)
           (user : json) : M json :=
  can_read <- _can_read program project user ;;
  if negb can_read
  then
    log ("No read permissions on " ++ program ++ "-" ++ project) ;;
    ret JNull
  else
    let study_path := ("studies/" ++ project)%string in
    let project_id := (program ++ "-" ++ project)%string in
    emit (EFhirGet (program ++ "-" ++ project) study_path) ;;
    logs <- lift (fhir_get w (program ++ "-" ++ project) study_path) ;;
    logs_extend logs ;;
    emit (ECp study_path project_id) ;;
    cp_result <- lift (cp w study_path project_id) ;;
    msg <- lift (getitem cp_result "msg") ;;
    logs_append msg ;;
    object_id <- lift (getitem cp_result "object_id") ;;
    ret object_id.

Definition _put (w : world) (input_data : json) (program project : string)
           (user : json) : M unit :=
  import_steps w input_data program project user.

Definition _main (w : world) : M unit :=
  token <- _get_token w ;;
  user <- _user w token ;;
  new_output user ;;
  input_data <- _input_data w ;;
  parts <- _get_program_project input_data ;;
  pp <- unpack2 parts ;;
  let '(program, project) := pp in
  method <- lift (dict_get input_data "method") ;;
  assert_ (truthy method) "input data must contain a `method`" ;;
  lowered <- py_lower method ;;
  (if String.eqb lowered "put"
   then _put w input_data program project user
   else
     lowered <- py_lower method ;;
     if String.eqb lowered "get"
     then
       object_id <- _get w input_data program project user ;;
       set_object_id object_id
     else raise (Exception ("unknown method " ++ py_str w method))) ;;
  print_out w.

End fhir_import_export.

(** ** A concrete world, for running the scripts on examples *)

Definition grant (method service : string) : json :=
  JObj [("method", JStr method); ("service", JStr service)].

(** A user who may create projects in program [aced] and read project
    [aced-study]. *)
Definition demo_user : json :=
  JObj [("resources",
         JArr [JStr "/programs/aced";
               JStr "/services/sheepdog/submission/program";
               JStr "/services/sheepdog/submission/project";
               JStr "/programs/aced/projects";
               JStr "/programs/aced/projects/study"]);
        ("authz",
         JObj [("/programs/aced/projects", JArr [grant "*" "sheepdog"]);
               ("/programs/aced/projects/study", JArr [grant "read-storage" "*"])])].

(** A world in which the user document is [u], [INPUT_DATA] parses to
    [input], and the download, unzip and load children end with the exit
    codes [dl], [uz] and [ld]. *)
Definition demo_world (u input : json) (dl uz ld : Z) : world :=
  {| environ := [("INPUT_DATA", "{}")];
     json_loads := fun _ => Ok input;
     gen3_user := fun _ => Ok u;
     spawn := fun cmd _ =>
       match cmd with
       | "gen3_util" :: _ => Ok (dl, "", "")
       | "unzip" :: _ => Ok (uz, "", "")
       | _ => Ok (ld, "loaded", "")
       end;
     glob := fun path => [(path ++ "Patient.ndjson")%string];
     fhir_get := fun _ _ => Ok [JStr "exported"];
     cp := fun _ _ => Ok (JObj [("msg", JStr "uploaded"); ("object_id", JStr "guid-1")]);
     py_format := fun _ => "?";
     json_dumps := fun v => match v with
                            | JObj kvs => String.concat "," (map fst kvs)
                            | _ => ""
                            end |}.

(** A user without any right. *)
Definition no_rights : json := JObj [("resources", JArr []); ("authz", JObj [])].



(** A user with every resource [_can_create] asks for in program [aced]
    and an empty [authz]. *)
Definition resources_only : json :=
  JObj [("resources",
         JArr [JStr "/programs/aced";
               JStr "/services/sheepdog/submission/program";
               JStr "/services/sheepdog/submission/project";
               JStr "/programs/aced/projects"]);
        ("authz", JObj [])].

Definition put_input : json :=
  JObj [("project_id", JStr "aced-study"); ("object_id", JStr "guid-0");
        ("method", JStr "PUT")].

Definition get_input : json :=
  JObj [("project_id", JStr "aced-study"); ("method", JStr "Get")].

(** A world like [demo_world] in which no program can be started. *)
Definition no_tools : world :=
  {| environ := [("INPUT_DATA", "{}")];
     json_loads := fun _ => Ok put_input;
     gen3_user := fun _ => Ok demo_user;
     spawn := fun _ _ => Err OSError;
     glob := fun _ => [];
     fhir_get := fun _ _ => Ok [];
     cp := fun _ _ => Ok JNull;
     py_format := fun _ => "";
     json_dumps := fun _ => "" |}.

(** A world without [INPUT_DATA] in the environment. *)
Definition no_input_data : world :=
  {| environ := [];
     json_loads := fun _ => Ok put_input;
     gen3_user := fun _ => Ok demo_user;
     spawn := fun _ _ => Ok (0%Z, "", "");
     glob := fun _ => [];
     fhir_get := fun _ _ => Ok [];
     cp := fun _ _ => Ok JNull;
     py_format := fun _ => "";
     json_dumps := fun _ => "" |}.

(** * Vocabulary of the properties *)

(** ** Runs

    [m s] runs the code [m] in the state [s]; [fst] is what it returns
    or raises and [snd] is the state it leaves. *)

(** [m] returns [a], in whatever state it is run. *)
Definition returns {A : Type} (m : M A) (a : A) : Prop :=
  forall s, fst (m s) = Ok a.

(** What [m] returns or raises does not depend on the state. *)
Definition indep {A : Type} (m : M A) : Prop :=
  forall s1 s2, fst (m s1) = fst (m s2).

(** Running [m] moves the state along the relation [R], also when [m]
    raises. *)
Definition respects (R : state -> state -> Prop) {A : Type} (m : M A) : Prop :=
  forall s, R s (snd (m s)).

(** The log only grows at its end, and the user document stays. *)
Definition log_extends (s s' : state) : Prop :=
  o_user (out s') = o_user (out s) /\
  exists added, o_logs (out s') = o_logs (out s) ++ added.

(** The trace grows by events that all satisfy [p]. *)
Definition emits_only (p : event -> bool) (s s' : state) : Prop :=
  exists evs, trace s' = trace s ++ evs /\ forallb p evs = true.

(** Nothing happens outside the process. *)
Definition silent : state -> state -> Prop := emits_only (fun _ => false).

Definition same_files (s s' : state) : Prop :=
  o_files (out s') = o_files (out s).

Definition same_object_id (s s' : state) : Prop :=
  o_object_id (out s') = o_object_id (out s).

(** ** Events *)

Definition is_print (ev : event) : bool :=
  match ev with EPrint _ => true | _ => false end.

Definition is_subprocess (ev : event) : bool :=
  match ev with ESubprocess _ _ => true | _ => false end.

Definition not_print (ev : event) : bool := negb (is_print ev).

(** The result line: [print(f"[out] {json.dumps(output, ...)}")]. *)
Definition result_line (w : world) (o : output) : event :=
  EPrint ("[out] " ++ json_dumps w (output_json o)).

(** [m] prints the result line as the last thing it does and prints
    nothing else; when it raises it has printed nothing. *)
Definition prints_last (w : world) (m : M unit) : Prop :=
  forall s,
    match fst (m s) with
    | inr _ =>
        exists evs,
          trace (snd (m s)) = trace s ++ evs ++ [result_line w (out (snd (m s)))] /\
          forallb not_print evs = true
    | inl _ => emits_only not_print s (snd (m s))
    end.

(** The three programs the import path runs. *)
Inductive tool : Type := Download | Unzip | Load.

Definition program_of (t : tool) : string :=
  match t with
  | Download => "gen3_util"
  | Unzip => "unzip"
  | Load => "./load_all"
  end.

(** The event starts the program of [t]. *)
Definition starts (t : tool) (ev : event) : bool :=
  match ev with
  | ESubprocess (prog :: _) _ => String.eqb prog (program_of t)
  | _ => false
  end.

(** The command lines built in [_download_and_unzip] and [_load_all]. *)
Definition download_cmd (w : world) (object_id : json) : list string :=
  split_ws ("gen3_util files cp " ++ py_str w object_id
            ++ " /tmp/" ++ py_str w object_id).

Definition unzip_cmd (w : world) (object_id : json) (file_path : string) : list string :=
  split_ws ("unzip -o -j /tmp/" ++ py_str w object_id ++ "/*.zip -d " ++ file_path).

Definition load_cmd : list string := ["./load_all"].

Definition load_env (study project_id : string) : list (string * string) :=
  [("study", study);
   ("project_id", project_id);
   ("schema", "https://aced-public.s3.us-west-2.amazonaws.com/aced-test.json")].

(** The exit code of a child, when it could be started. *)
Definition exit_code (r : result (Z * string * string)) : option Z :=
  match r with
  | inr (code, _, _) => Some code
  | inl _ => None
  end.

(** [/root/studies/{project}/] *)
Definition study_dir (project : string) : string :=
  "/root/studies/" ++ project ++ "/".

(** ** The membership checks of [_can_create], one by one *)

(** [r in user['resources']] *)
Definition resource_check (user : json) (r : string) : result bool :=
  match getitem user "resources" with
  | inr resources => str_in r resources
  | inl e => Err e
  end.

(** [k in user['authz']] *)
Definition authz_key_check (user : json) (k : string) : result bool :=
  match getitem user "authz" with
  | inr authz => str_in k authz
  | inl e => Err e
  end.

(** [{'method': .., 'service': ..} in user['authz'][k]] *)
Definition authz_grant_check (user : json) (k : string) (p : permission) : result bool :=
  match getitem user "authz" with
  | inr authz =>
      match getitem authz k with
      | inr granted => permission_in p granted
      | inl e => Err e
      end
  | inl e => Err e
  end.

Definition projects_of (program : string) : string :=
  "/programs/" ++ program ++ "/projects".

(** The six checks pass. *)
Definition can_create_checks (program : string) (user : json) : Prop :=
  resource_check user ("/programs/" ++ program) = Ok true /\
  resource_check user "/services/sheepdog/submission/program" = Ok true /\
  resource_check user "/services/sheepdog/submission/project" = Ok true /\
  resource_check user (projects_of program) = Ok true /\
  authz_key_check user (projects_of program) = Ok true /\
  authz_grant_check user (projects_of program) sheepdog_any_method = Ok true.

(** The permission test as a plain conjunction of the six checks, each of
    them evaluated whatever the earlier ones gave: the reading under
    which no check guards another. *)
Definition and_then {A B : Type} (r : result A) (k : A -> result B) : result B :=
  match r with
  | inr a => k a
  | inl e => Err e
  end.

Definition can_create_flat (program : string) (user : json) : result bool :=
  and_then (resource_check user ("/programs/" ++ program)) (fun c1 =>
  and_then (resource_check user "/services/sheepdog/submission/program") (fun c2 =>
  and_then (resource_check user "/services/sheepdog/submission/project") (fun c3 =>
  and_then (resource_check user (projects_of program)) (fun c4 =>
  and_then (authz_key_check user (projects_of program)) (fun c5 =>
  and_then (authz_grant_check user (projects_of program) sheepdog_any_method) (fun c6 =>
  Ok (c1 && c2 && c3 && c4 && c5 && c6))))))).

(** The reading of [_can_create] under which it is that plain
    conjunction. *)
Definition can_create_is_flat : Prop :=
  forall program user s,
    fst (_can_create program user s) = can_create_flat program user.

(** The log lines [_can_create] writes for its checks. *)
Definition program_line (program : string) (found : bool) : list json :=
  if found then []
  else [JStr ("/programs/" ++ program ++ " not found in user resources")].

Definition resource_line (r : string) (found : bool) : json :=
  if found then JStr ("HAS RESOURCE " ++ r)
  else JStr (r ++ " not found in user resources").

Definition grant_line (r : string) (found : bool) : json :=
  if found then JStr ("HAS SERVICE sheepdog on resource " ++ r)
  else JStr ("sheepdog not found in user authz for " ++ r).

Definition resource_lines (program : string) (c1 c2 c3 c4 : bool) : list json :=
  program_line program c1 ++
  [resource_line "/services/sheepdog/submission/program" c2;
   resource_line "/services/sheepdog/submission/project" c3;
   resource_line (projects_of program) c4].

(** The three conditions under which the import path loads: the
    permission check returned [True], the input data carry a truthy
    object id, and the download-and-unzip step returned [True]. *)
Definition import_guards (w : world) (user input_data : json)
           (program project : string) : Prop :=
  returns (_can_create program user) true /\
  exists object_id,
    dict_get input_data "object_id" = Ok object_id /\
    truthy object_id = true /\
    returns (_download_and_unzip w object_id (study_dir project)) true.

(** The reading of a run under which its child processes are unordered:
    for any two of the three tools there is a run of [fhir_import] that
    starts the second with no start of the first before it. *)
Definition subprocesses_unordered : Prop :=
  forall a b : tool,
    a <> b ->
    exists w pre ev post,
      trace (snd (fhir_import._main w initial)) = pre ++ ev :: post /\
      starts b ev = true /\
      existsb (starts a) pre = false.

(** ** The start of [_main]

    What the first lines of both [_main] obtain before any pipeline step:
    the user document, the input data, and the program and the project
    parsed from the project id. *)
Definition session (w : world) : result (json * json * string * string) :=
  fst ((token <- _get_token w ;;
        user <- _user w token ;;
        input_data <- _input_data w ;;
        parts <- _get_program_project input_data ;;
        pp <- unpack2 parts ;;
        ret (user, input_data, fst pp, snd pp)) initial).

(** The shape both [_main] share: the start, then the rest of the script
    on what the start obtained. *)
Definition start_then (w : world)
           (rest : json -> json -> string -> string -> M unit) : M unit :=
  token <- _get_token w ;;
  user <- _user w token ;;
  new_output user ;;
  input_data <- _input_data w ;;
  parts <- _get_program_project input_data ;;
  pp <- unpack2 parts ;;
  let '(program, project) := pp in
  rest user input_data program project.

(** The state after [output = {'user': user, 'files': [], 'logs': []}]. *)
Definition fresh (user : json) : state := mkState (mkOutput user [] [] None) [].

(** The user document and the input data a run obtains. *)
Definition user_of (w : world) : result json :=
  fst ((token <- _get_token w ;; _user w token) initial).

Definition input_of (w : world) : result json :=
  fst (_input_data w initial).

(** The two pipelines of [fhir_import_export._main], each with the print
    that follows it. *)
Definition put_pipeline (w : world) (input_data : json) (program project : string)
           (user : json) : M unit :=
  fhir_import_export._put w input_data program project user ;;
  print_out w.

Definition get_pipeline (w : world) (input_data : json) (program project : string)
           (user : json) : M unit :=
  (object_id <- fhir_import_export._get w input_data program project user ;;
   set_object_id object_id) ;;
  print_out w.


(** The state [s] after [lines] were appended to the log and [evs]
    happened. *)
Definition advance (s : state) (lines : list json) (evs : list event) : state :=
  mkState (mkOutput (o_user (out s)) (o_files (out s))
                    (o_logs (out s) ++ lines) (o_object_id (out s)))
          (trace s ++ evs).

(** The tools started by a sequence of events, in order. *)
Definition tools_started (evs : list event) : list tool :=
  flat_map (fun ev => filter (fun t => starts t ev) [Download; Unzip; Load]) evs.

(** [program, project = _get_program_project(input_data)] *)
Definition parse_project_id (input_data : json) : M (string * string) :=
  parts <- _get_program_project input_data ;;
  unpack2 parts.

(** ** The membership checks of [_can_read] *)

(** [/programs/{program}/projects/{project}] *)
Definition project_path (program project : string) : string :=
  "/programs/" ++ program ++ "/projects/" ++ project.

(** The four checks pass. *)
Definition can_read_checks (program project : string) (user : json) : Prop :=
  resource_check user ("/programs/" ++ program) = Ok true /\
  resource_check user (project_path program project) = Ok true /\
  authz_key_check user (project_path program project) = Ok true /\
  authz_grant_check user (project_path program project)
                    fhir_import_export.read_storage_any_service = Ok true.

(** ** Child processes one after the other *)

(** The exit code of the child an event started, when it could be
    started. *)
Definition exit_of (w : world) (ev : event) : option Z :=
  match ev with
  | ESubprocess cmd env => exit_code (spawn w cmd env)
  | _ => None
  end.

(** The starts of child processes of a run, [evs], are sequential: there
    is none; or the download tool alone; or the download tool, which
    ended with code 0, and then the unzip tool; or these two, both ended
    with code 0, and then the load script. *)
Definition sequential (w : world) (evs : list event) : Prop :=
  evs = [] \/
  (exists d, evs = [d] /\ starts Download d = true) \/
  (exists d u,
      evs = [d; u] /\
      starts Download d = true /\ starts Unzip u = true /\
      exit_of w d = Some 0%Z) \/
  (exists d u l,
      evs = [d; u; l] /\
      starts Download d = true /\ starts Unzip u = true /\ starts Load l = true /\
      exit_of w d = Some 0%Z /\ exit_of w u = Some 0%Z).

(** * Properties *)

(** ** Runs *)

Lemma bind_run {A B : Type} (m : M A) (k : A -> M B) s :
  bind m k s = match fst (m s) with
               | inr a => k a (snd (m s))
               | inl e => (inl e, snd (m s))
               end.
Proof. unfold bind. destruct (m s) as [[e|a] s']; reflexivity. Qed.

Lemma bind_ok {A B : Type} (m : M A) (k : A -> M B) s a :
  fst (m s) = Ok a -> bind m k s = k a (snd (m s)).
Proof. intros H. rewrite bind_run, H. reflexivity. Qed.

Lemma returns_of_indep {A : Type} (m : M A) (a : A) s :
  indep m -> fst (m s) = Ok a -> returns m a.
Proof. intros Hi H s'. rewrite (Hi s' s). exact H. Qed.

Lemma indep_ret {A : Type} (a : A) : indep (ret a).
Proof. intros s1 s2. reflexivity. Qed.

Lemma indep_raise {A : Type} (e : exn) : indep (@raise A e).
Proof. intros s1 s2. reflexivity. Qed.

Lemma indep_lift {A : Type} (r : result A) : indep (lift r).
Proof. intros s1 s2. reflexivity. Qed.

Lemma indep_assert b msg : indep (assert_ b msg).
Proof. destruct b; intros s1 s2; reflexivity. Qed.

Lemma indep_bind {A B : Type} (m : M A) (k : A -> M B) :
  indep m -> (forall a, indep (k a)) -> indep (bind m k).
Proof.
  intros Hm Hk s1 s2. rewrite !bind_run, (Hm s1 s2).
  destruct (fst (m s2)); [reflexivity | apply Hk].
Qed.

Lemma indep_for_acc {A S : Type} (xs : list A) (body : A -> S -> M S) :
  (forall x acc, indep (body x acc)) -> forall acc, indep (for_acc xs acc body).
Proof.
  intros Hb. induction xs as [|x xs IH]; intros acc; simpl.
  - apply indep_ret.
  - apply indep_bind; [apply Hb | intros; apply IH].
Qed.

Lemma indep_for_each {A : Type} (xs : list A) (body : A -> M unit) :
  (forall x, indep (body x)) -> indep (for_each xs body).
Proof.
  intros Hb. induction xs as [|x xs IH]; simpl.
  - apply indep_ret.
  - apply indep_bind; [apply Hb | intros; apply IH].
Qed.

Lemma indep_unit (m : M unit) : (forall s, fst (m s) = Ok tt) -> indep m.
Proof. intros H s1 s2. rewrite !H. reflexivity. Qed.

(** Decomposes a goal [indep m] along the structure of [m]. *)
Ltac indep_tac :=
  repeat first
    [ apply indep_ret | apply indep_raise | apply indep_lift | apply indep_assert
    | apply indep_unit; intros; reflexivity
    | apply indep_bind; [ | intros]
    | apply indep_for_acc; intros
    | apply indep_for_each; intros
    | match goal with
      | |- indep (if ?b then _ else _) => destruct b
      | |- indep (match ?x with _ => _ end) => destruct x
      | |- indep (let '(_, _) := ?x in _) => destruct x
      end ].

(** ** Relations every step keeps: closure of [respects R] for a
    preorder [R] *)

Section Respects.

Variable R : state -> state -> Prop.
Context {R_pre : PreOrder R}.

Lemma respects_ret {A : Type} (a : A) : respects R (ret a).
Proof. intros s. simpl. reflexivity. Qed.

Lemma respects_raise {A : Type} (e : exn) : respects R (@raise A e).
Proof. intros s. simpl. reflexivity. Qed.

Lemma respects_lift {A : Type} (r : result A) : respects R (lift r).
Proof. intros s. simpl. reflexivity. Qed.

Lemma respects_assert b msg : respects R (assert_ b msg).
Proof. destruct b; intros s; simpl; reflexivity. Qed.

Lemma respects_bind {A B : Type} (m : M A) (k : A -> M B) :
  respects R m -> (forall a, respects R (k a)) -> respects R (bind m k).
Proof.
  intros Hm Hk s. rewrite bind_run.
  destruct (fst (m s)); simpl.
  - apply Hm.
  - transitivity (snd (m s)); [apply Hm | apply Hk].
Qed.

Lemma respects_for_acc {A S : Type} (xs : list A) (body : A -> S -> M S) :
  (forall x acc, respects R (body x acc)) ->
  forall acc, respects R (for_acc xs acc body).
Proof.
  intros Hb. induction xs as [|x xs IH]; intros acc; simpl.
  - apply respects_ret.
  - apply respects_bind; [apply Hb | intros; apply IH].
Qed.

Lemma respects_for_each {A : Type} (xs : list A) (body : A -> M unit) :
  (forall x, respects R (body x)) -> respects R (for_each xs body).
Proof.
  intros Hb. induction xs as [|x xs IH]; simpl.
  - apply respects_ret.
  - apply respects_bind; [apply Hb | intros; apply IH].
Qed.

End Respects.

(** Decomposes a goal [respects R m] along the structure of [m]; [prim]
    closes the goals about the primitives that change the state. *)
Ltac respects_tac prim :=
  repeat (first
    [ prim
    | apply respects_ret | apply respects_raise | apply respects_lift
    | apply respects_assert
    | apply respects_bind
    | apply respects_for_acc
    | apply respects_for_each
    | match goal with
      | |- respects _ (if ?b then _ else _) => destruct b
      | |- respects _ (match ?x with _ => _ end) => destruct x
      | |- respects _ (let '(_, _) := ?x in _) => destruct x
      end ]; try exact _; intros).

(** ** The relations used below are preorders *)

#[local] Instance log_extends_pre : PreOrder log_extends.
Proof.
  split.
  - intros s. split; [reflexivity | exists []; symmetry; apply app_nil_r].
  - intros s1 s2 s3 [Hu1 [l1 Hl1]] [Hu2 [l2 Hl2]]. split.
    + congruence.
    + exists (l1 ++ l2). rewrite Hl2, Hl1. symmetry. apply app_assoc.
Qed.

#[local] Instance emits_only_pre (p : event -> bool) : PreOrder (emits_only p).
Proof.
  split.
  - intros s. exists []. split; [symmetry; apply app_nil_r | reflexivity].
  - intros s1 s2 s3 [t1 [H1 P1]] [t2 [H2 P2]]. exists (t1 ++ t2). split.
    + rewrite H2, H1. symmetry. apply app_assoc.
    + rewrite forallb_app, P1, P2. reflexivity.
Qed.

#[local] Instance silent_pre : PreOrder silent.
Proof. unfold silent. apply emits_only_pre. Qed.

#[local] Instance same_files_pre : PreOrder same_files.
Proof.
  split.
  - intros s. reflexivity.
  - intros s1 s2 s3 H1 H2. unfold same_files in *. congruence.
Qed.

#[local] Instance same_object_id_pre : PreOrder same_object_id.
Proof.
  split.
  - intros s. reflexivity.
  - intros s1 s2 s3 H1 H2. unfold same_object_id in *. congruence.
Qed.

Lemma silent_trace s s' : silent s s' -> trace s' = trace s.
Proof.
  intros [evs [H P]]. destruct evs as [|ev evs].
  - rewrite H. apply app_nil_r.
  - discriminate P.
Qed.

(** ** The primitives *)

Lemma log_extends_logs_append line : respects log_extends (logs_append line).
Proof. intros s. split; [reflexivity | exists [line]; reflexivity]. Qed.

Lemma log_extends_log line : respects log_extends (log line).
Proof. apply log_extends_logs_append. Qed.

Lemma log_extends_logs_extend lines : respects log_extends (logs_extend lines).
Proof. intros s. split; [reflexivity | exists lines; reflexivity]. Qed.

Lemma log_extends_files_append path : respects log_extends (files_append path).
Proof. intros s. split; [reflexivity | exists []; symmetry; apply app_nil_r]. Qed.

Lemma log_extends_emit ev : respects log_extends (emit ev).
Proof. intros s. split; [reflexivity | exists []; symmetry; apply app_nil_r]. Qed.

Lemma emits_only_emit (p : event -> bool) ev :
  p ev = true -> respects (emits_only p) (emit ev).
Proof. intros H s. exists [ev]. simpl. rewrite H. split; reflexivity. Qed.

(** A step that leaves the trace alone emits only what one likes. *)
Lemma emits_only_keep (p : event -> bool) {A : Type} (m : M A) :
  (forall s, trace (snd (m s)) = trace s) -> respects (emits_only p) m.
Proof.
  intros H s. exists []. rewrite H. split; [symmetry; apply app_nil_r | reflexivity].
Qed.

Ltac log_extends_prim :=
  first [ apply log_extends_log | apply log_extends_logs_append
        | apply log_extends_logs_extend | apply log_extends_files_append
        | apply log_extends_emit ].

Ltac emits_prim :=
  first [ apply emits_only_emit; reflexivity
        | apply emits_only_keep; intros; reflexivity ].

Ltac same_prim := intros ?; reflexivity.

(** ** What each function does to the state *)

Lemma can_create_indep program user : indep (_can_create program user).
Proof. unfold _can_create. indep_tac. Qed.

Lemma can_create_log_extends program user :
  respects log_extends (_can_create program user).
Proof. unfold _can_create. respects_tac log_extends_prim. Qed.

Lemma can_create_silent program user :
  respects silent (_can_create program user).
Proof. unfold _can_create, silent. respects_tac emits_prim. Qed.

Lemma can_create_same_files program user :
  respects same_files (_can_create program user).
Proof. unfold _can_create. respects_tac same_prim. Qed.

Lemma can_read_indep program project user :
  indep (fhir_import_export._can_read program project user).
Proof. unfold fhir_import_export._can_read. indep_tac. Qed.

Lemma can_read_log_extends program project user :
  respects log_extends (fhir_import_export._can_read program project user).
Proof. unfold fhir_import_export._can_read. respects_tac log_extends_prim. Qed.

(** ** The subprocess steps, case by case *)

(** [str.split()] on a few strings: runs of ASCII white space, a no-break
    space (U+00A0), an em space (U+2003), and two characters that are no
    white space, e-acute (U+00E9) and the zero width space (U+200B). *)
Example split_ws_ascii :
  split_ws "  gen3_util  files cp " = ["gen3_util"; "files"; "cp"].
Proof. reflexivity. Qed.

Example split_ws_no_break_space :
  split_ws ("a" ++ String (ascii_of_nat 194) (String (ascii_of_nat 160) "b"))
  = ["a"; "b"].
Proof. reflexivity. Qed.

Example split_ws_em_space :
  split_ws ("a" ++ String (ascii_of_nat 226)
                     (String (ascii_of_nat 128) (String (ascii_of_nat 131) "b")))
  = ["a"; "b"].
Proof. reflexivity. Qed.

Example split_ws_e_acute :
  split_ws ("a" ++ String (ascii_of_nat 195) (String (ascii_of_nat 169) "b"))
  = [("a" ++ String (ascii_of_nat 195) (String (ascii_of_nat 169) "b"))%string].
Proof. reflexivity. Qed.

Example split_ws_zero_width_space :
  length (split_ws ("a" ++ String (ascii_of_nat 226)
                             (String (ascii_of_nat 128)
                                (String (ascii_of_nat 139) "b")))) = 1.
Proof. reflexivity. Qed.

Lemma download_cmd_shape w object_id :
  download_cmd w object_id =
  "gen3_util" :: "files" :: "cp"
    :: split_ws (py_str w object_id ++ " /tmp/" ++ py_str w object_id).
Proof. reflexivity. Qed.

Lemma unzip_cmd_shape w object_id file_path :
  exists rest, unzip_cmd w object_id file_path = "unzip" :: "-o" :: "-j" :: rest.
Proof. eexists. unfold unzip_cmd. cbv - [split_ws_aux String.append py_str]. reflexivity. Qed.

Lemma emit_run ev s : emit ev s = (Ok tt, advance s [] [ev]).
Proof. destruct s as [[u f l o] t]. unfold emit, advance. simpl. rewrite app_nil_r. reflexivity. Qed.

Lemma logs_append_run line s : logs_append line s = (Ok tt, advance s [line] []).
Proof. destruct s as [[u f l o] t]. unfold logs_append, advance. simpl. rewrite app_nil_r. reflexivity. Qed.

Lemma log_run line s : log line s = (Ok tt, advance s [JStr line] []).
Proof. apply logs_append_run. Qed.

(** [_download_and_unzip], by what the two children do. *)
Lemma download_and_unzip_run w object_id file_path s :
  let dl := ESubprocess (download_cmd w object_id) [] in
  let uz := ESubprocess (unzip_cmd w object_id file_path) [] in
  _download_and_unzip w object_id file_path s =
  match spawn w (download_cmd w object_id) [] with
  | inl e => (Err e, advance s [] [dl])
  | inr (code, _, _) =>
      if Z.eqb code 0
      then
        match spawn w (unzip_cmd w object_id file_path) [] with
        | inl e =>
            (Err e,
             advance s [JStr ("DOWNLOADED " ++ py_str w object_id ++ " " ++ file_path)]
                     [dl; uz])
        | inr (code', _, _) =>
            if Z.eqb code' 0
            then (Ok true,
                  advance s [JStr ("DOWNLOADED " ++ py_str w object_id ++ " " ++ file_path);
                             JStr ("UNZIPPED " ++ file_path)]
                          [dl; uz])
            else (Ok false,
                  advance s [JStr ("DOWNLOADED " ++ py_str w object_id ++ " " ++ file_path);
                             JStr ("ERROR UNZIPPING /tmp/" ++ py_str w object_id)]
                          [dl; uz])
        end
      else (Ok false,
            advance s [JStr ("ERROR DOWNLOADING " ++ py_str w object_id
                             ++ " /tmp/" ++ py_str w object_id)]
                    [dl])
  end.
Proof.
  intros dl uz. subst dl uz.
  unfold _download_and_unzip, subprocess_run.
  fold (download_cmd w object_id). fold (unzip_cmd w object_id file_path).
  generalize (download_cmd w object_id) (unzip_cmd w object_id file_path).
  intros c1 c2.
  destruct s as [[u f l o] t].
  unfold bind, emit, lift, ret, log, logs_append, log_stream, advance. simpl.
  destruct (spawn w c1 []) as [e|[[code so] se]]; simpl.
  - rewrite app_nil_r. reflexivity.
  - destruct (Z.eqb code 0); simpl.
    + destruct (spawn w c2 []) as [e|[[code' so'] se']]; simpl.
      * rewrite <- !app_assoc. reflexivity.
      * destruct (Z.eqb code' 0); simpl; rewrite <- !app_assoc; reflexivity.
    + reflexivity.
Qed.

(** [_load_all], by what the child does. *)
Lemma load_all_run w study project_id s :
  let ld := ESubprocess load_cmd (load_env study project_id) in
  _load_all w study project_id s =
  match spawn w load_cmd (load_env study project_id) with
  | inl e => (Err e, advance s [JStr "LOADING: ['./load_all']"] [ld])
  | inr (code, sout, serr) =>
      if Z.eqb code 0
      then (Ok true,
            advance s [JStr "LOADING: ['./load_all']"; JStr ("LOADED " ++ study);
                       JStr serr; JStr sout] [ld])
      else (Ok false,
            advance s [JStr "LOADING: ['./load_all']"; JStr ("ERROR LOADING " ++ study);
                       JStr serr; JStr sout] [ld])
  end.
Proof.
  intros ld. subst ld.
  unfold _load_all, subprocess_run.
  change (split_ws "./load_all") with load_cmd.
  fold (load_env study project_id).
  generalize (load_env study project_id). intros env.
  destruct s as [[u f l o] t].
  unfold bind, emit, lift, ret, log, logs_append, captured, advance. simpl.
  destruct (spawn w load_cmd env) as [e|[[code so] se]]; simpl.
  - reflexivity.
  - destruct (Z.eqb code 0); simpl; rewrite <- !app_assoc; reflexivity.
Qed.

Lemma for_each_files_append paths s :
  for_each paths files_append s =
  (Ok tt, mkState (mkOutput (o_user (out s)) (o_files (out s) ++ paths)
                            (o_logs (out s)) (o_object_id (out s)))
                  (trace s)).
Proof.
  revert s. induction paths as [|p paths IH]; intros [[u f l o] t]; simpl.
  - rewrite app_nil_r. reflexivity.
  - unfold bind. simpl. rewrite IH. simpl. rewrite <- app_assoc. reflexivity.
Qed.

Lemma download_and_unzip_log_extends w object_id file_path :
  respects log_extends (_download_and_unzip w object_id file_path).
Proof.
  unfold _download_and_unzip, subprocess_run, log_stream.
  respects_tac log_extends_prim.
Qed.

Lemma load_all_log_extends w study project_id :
  respects log_extends (_load_all w study project_id).
Proof.
  unfold _load_all, subprocess_run. respects_tac log_extends_prim.
Qed.

Lemma import_steps_log_extends w input_data program project user :
  respects log_extends (import_steps w input_data program project user).
Proof.
  unfold import_steps, _get_object_id.
  respects_tac ltac:(idtac;
                     match goal with
                     | |- respects _ (_can_create _ _) =>
                         apply can_create_log_extends
                     | |- respects _ (_download_and_unzip _ _ _) =>
                         apply download_and_unzip_log_extends
                     | |- respects _ (_load_all _ _ _) =>
                         apply load_all_log_extends
                     | |- respects _ (log _) => apply log_extends_log
                     | |- respects _ (emit _) => apply log_extends_emit
                     | |- respects _ (files_append _) =>
                         apply log_extends_files_append
                     end).
Qed.

Lemma get_log_extends w input_data program project user :
  respects log_extends (fhir_import_export._get w input_data program project user).
Proof.
  unfold fhir_import_export._get.
  respects_tac ltac:(first [ log_extends_prim | apply can_read_log_extends ]).
Qed.

(** C8.  The log of a run is append-only and ordered: each of
    [_can_create], [_can_read], [_download_and_unzip], [_load_all],
    [_get] and [_put], run in any state and whether it returns or raises,
    leaves a log that is the log it found followed by the entries it
    added, and leaves [output['user']] as it found it. *)
Theorem logs_append_only :
  forall w input_data program project user object_id file_path study project_id,
    respects log_extends (_can_create program user) /\
    respects log_extends (fhir_import_export._can_read program project user) /\
    respects log_extends (_download_and_unzip w object_id file_path) /\
    respects log_extends (_load_all w study project_id) /\
    respects log_extends (fhir_import_export._get w input_data program project user) /\
    respects log_extends (fhir_import_export._put w input_data program project user).
Proof.
  intros. repeat apply conj.
  - apply can_create_log_extends.
  - apply can_read_log_extends.
  - apply download_and_unzip_log_extends.
  - apply load_all_log_extends.
  - apply get_log_extends.
  - apply import_steps_log_extends.
Qed.

(** C5.  [_download_and_unzip] and [_load_all] return a boolean read off
    the exit codes: [_download_and_unzip] returns [True] exactly when
    the download child and the unzip child both end with code 0, and
    [False] exactly when the download child ends with another code or,
    after a download that ended with 0, the unzip child does;
    [_load_all] returns [True] exactly when the load child ends with
    code 0 and [False] exactly when it ends with another code.  Nothing
    is retried: [_download_and_unzip] starts the download child once and
    the unzip child at most once, [_load_all] starts the load child
    once. *)
Theorem exit_codes_decide_results :
  forall w object_id file_path study project_id s,
    let dl := spawn w (download_cmd w object_id) [] in
    let uz := spawn w (unzip_cmd w object_id file_path) [] in
    let ld := spawn w load_cmd (load_env study project_id) in
    let after_dl := snd (_download_and_unzip w object_id file_path s) in
    (fst (_download_and_unzip w object_id file_path s) = Ok true <->
     exit_code dl = Some 0%Z /\ exit_code uz = Some 0%Z) /\
    (fst (_download_and_unzip w object_id file_path s) = Ok false <->
     (exists c, exit_code dl = Some c /\ c <> 0%Z) \/
     (exit_code dl = Some 0%Z /\ exists c, exit_code uz = Some c /\ c <> 0%Z)) /\
    (fst (_load_all w study project_id s) = Ok true <-> exit_code ld = Some 0%Z) /\
    (fst (_load_all w study project_id s) = Ok false <->
     exists c, exit_code ld = Some c /\ c <> 0%Z) /\
    (trace after_dl = trace s ++ [ESubprocess (download_cmd w object_id) []] \/
     trace after_dl = trace s ++ [ESubprocess (download_cmd w object_id) [];
                                  ESubprocess (unzip_cmd w object_id file_path) []]) /\
    trace (snd (_load_all w study project_id s)) =
      trace s ++ [ESubprocess load_cmd (load_env study project_id)].
Proof.
  intros w object_id file_path study project_id s dl uz ld after_dl.
  subst after_dl.
  rewrite download_and_unzip_run, load_all_run. fold dl uz ld.
  clearbody dl uz ld.
  split; [|split; [|split; [|split; [|split]]]].
  - destruct dl as [e1|[[c1 o1] e1]]; simpl; [split; [discriminate | intros [H _]; discriminate H]|].
    destruct (Z.eqb_spec c1 0) as [E1|E1].
    + destruct uz as [e2|[[c2 o2] e2]]; simpl; [split; [discriminate | intros [_ H]; discriminate H]|].
      destruct (Z.eqb_spec c2 0) as [E2|E2]; simpl.
      * subst. split; auto.
      * split; [discriminate | intros [_ H]; inversion H; contradiction].
    + simpl. split; [discriminate | intros [H _]; inversion H; contradiction].
  - destruct dl as [e1|[[c1 o1] e1]]; simpl.
    { split; [discriminate | intros [[c [H _]] | [H' _]]; [discriminate H | discriminate H']]. }
    destruct (Z.eqb_spec c1 0) as [E1|E1].
    + destruct uz as [e2|[[c2 o2] e2]]; simpl.
      { split; [discriminate|].
        intros [[c [H N]] | [_ [c [H' _]]]]; [inversion H; subst; contradiction | discriminate H']. }
      destruct (Z.eqb_spec c2 0) as [E2|E2]; simpl.
      * split; [discriminate|].
        intros [[c [H N]] | [_ [c [H N]]]]; inversion H; subst; contradiction.
      * split; [|reflexivity]. intros _. right. subst c1. split; [reflexivity|].
        exists c2. split; [reflexivity | assumption].
    + simpl. split; [|reflexivity]. intros _. left. exists c1. split; [reflexivity | assumption].
  - destruct ld as [e3|[[c3 o3] e3]]; simpl; [split; discriminate|].
    destruct (Z.eqb_spec c3 0) as [E3|E3]; simpl.
    + subst. split; reflexivity.
    + split; [discriminate | intros H; inversion H; contradiction].
  - destruct ld as [e3|[[c3 o3] e3]]; simpl.
    { split; [discriminate | intros [c [H _]]; discriminate H]. }
    destruct (Z.eqb_spec c3 0) as [E3|E3]; simpl.
    + split; [discriminate | intros [c [H N]]; inversion H; subst; contradiction].
    + split; [|reflexivity]. intros _. exists c3. split; [reflexivity | assumption].
  - destruct dl as [e1|[[c1 o1] e1]]; simpl; [left; reflexivity|].
    destruct (Z.eqb c1 0); [|left; reflexivity].
    destruct uz as [e2|[[c2 o2] e2]]; simpl; [right; reflexivity|].
    destruct (Z.eqb c2 0); right; reflexivity.
  - destruct ld as [e3|[[c3 o3] e3]]; simpl; [reflexivity|].
    destruct (Z.eqb c3 0); reflexivity.
Qed.

(** ** Splitting a project id *)

Lemma prefix_dash c t : String.prefix "-" (String c t) = Ascii.eqb c dash.
Proof.
  cbn [String.prefix]. unfold dash.
  destruct (Ascii.ascii_dec "-" c) as [E|E].
  - subst c. destruct t; reflexivity.
  - destruct (Ascii.eqb_spec c "-"%char) as [E'|E']; [congruence | reflexivity].
Qed.

Lemma substringb_dash s :
  substringb "-" s = negb (Nat.eqb (count_char dash s) 0).
Proof.
  induction s as [|c t IH]; [reflexivity|].
  cbn [substringb count_char]. rewrite prefix_dash, IH.
  destruct (Ascii.eqb c dash); reflexivity.
Qed.

Lemma split_on_length sep s :
  length (split_on sep s) = S (count_char sep s).
Proof.
  induction s as [|c t IH]; simpl; [reflexivity|].
  destruct (Ascii.eqb c sep); simpl.
  - rewrite IH. reflexivity.
  - destruct (split_on sep t) as [|p rest]; simpl in *; [discriminate | exact IH].
Qed.

Lemma split_on_none sep s :
  count_char sep s = 0 -> split_on sep s = [s].
Proof.
  induction s as [|c t IH]; simpl; [reflexivity|].
  destruct (Ascii.eqb c sep); simpl; [discriminate|].
  intros H. rewrite (IH H). reflexivity.
Qed.

Lemma split_on_two sep s a b :
  split_on sep s = [a; b] -> (a ++ String sep b)%string = s.
Proof.
  revert a. induction s as [|c t IH]; intros a; simpl; [discriminate|].
  destruct (Ascii.eqb_spec c sep) as [E|E].
  - intros H. inversion H as [[Ha Hs]]. subst c. simpl.
    pose proof (split_on_length sep t) as L. rewrite Hs in L. simpl in L.
    rewrite (split_on_none sep t) in Hs by lia. congruence.
  - destruct (split_on sep t) as [|p rest] eqn:Es; [discriminate|].
    intros H. inversion H; subst. simpl. f_equal. apply IH. reflexivity.
Qed.

Lemma unpack2_run parts s :
  unpack2 parts s =
  match parts with
  | [a; b] => (Ok (a, b), s)
  | _ => (Err ValueError, s)
  end.
Proof. destruct parts as [|a [|b [|c r]]]; reflexivity. Qed.

Lemma get_program_project_run kvs pid s :
  lookup "project_id" kvs = Some (JStr pid) ->
  _get_program_project (JObj kvs) s =
  if Nat.eqb (count_char dash pid) 0
  then (Err (AssertionError "project_id must be in the format <program>-<project>"), s)
  else (Ok (split_on dash pid), s).
Proof.
  intros H. unfold _get_program_project, bind, lift, assert_, py_split_dash.
  simpl. unfold has_key. rewrite H. simpl.
  rewrite substringb_dash. destruct (Nat.eqb (count_char dash pid) 0); reflexivity.
Qed.

(** C6.  For input data whose ['project_id'] is the string [pid]: with
    exactly one ['-'] in [pid] the parse gives a pair (program, project)
    with program + '-' + project = [pid]; with two or more, the
    assertions of [_get_program_project] pass and the two-element
    destructuring at the call site raises; with none, the assertion
    raises.  So the parse succeeds exactly when [pid] has exactly one
    ['-']. *)
Theorem project_id_round_trip :
  forall kvs pid s,
    lookup "project_id" kvs = Some (JStr pid) ->
    let input_data := JObj kvs in
    let dashes := count_char dash pid in
    (dashes = 1 ->
     exists program project,
       fst (parse_project_id input_data s) = Ok (program, project) /\
       (program ++ "-" ++ project)%string = pid) /\
    (2 <= dashes ->
     fst (_get_program_project input_data s) = Ok (split_on dash pid) /\
     fst (unpack2 (split_on dash pid) s) = Err ValueError /\
     fst (parse_project_id input_data s) = Err ValueError) /\
    (dashes = 0 ->
     fst (_get_program_project input_data s) =
       Err (AssertionError "project_id must be in the format <program>-<project>") /\
     fst (parse_project_id input_data s) =
       Err (AssertionError "project_id must be in the format <program>-<project>")) /\
    ((exists pp, fst (parse_project_id input_data s) = Ok pp) <-> dashes = 1).
Proof.
  intros kvs pid s H input_data dashes. subst input_data.
  unfold parse_project_id, bind.
  rewrite (@get_program_project_run kvs pid _ H).
  pose proof (split_on_length dash pid) as L. fold dashes in L |- *.
  destruct (Nat.eqb_spec dashes 0) as [E0|E0].
  - simpl. split; [intros; lia|]. split; [intros; lia|]. split; [auto|].
    split; [intros [pp Hpp]; discriminate | intros; lia].
  - rewrite unpack2_run.
    destruct (split_on dash pid) as [|a [|b [|c r]]] eqn:Es; simpl in *.
    + discriminate.
    + lia.
    + assert (D : dashes = 1) by lia.
      split; [intros _; exists a, b; split; [reflexivity | apply (@split_on_two dash pid a b Es)]|].
      split; [intros; lia|]. split; [intros; lia|].
      split; auto. intros _. exists (a, b). reflexivity.
    + split; [intros; lia|]. split; [auto|]. split; [intros; lia|].
      split; [intros [pp Hpp]; discriminate | intros; lia].
Qed.

(** The parse of ["aced-study"]. *)
Lemma project_id_round_trip_witness :
  exists program project,
    fst (parse_project_id put_input initial) = Ok (program, project) /\
    (program ++ "-" ++ project)%string = "aced-study".
Proof.
  apply (@project_id_round_trip
           [("project_id", JStr "aced-study"); ("object_id", JStr "guid-0");
            ("method", JStr "PUT")] "aced-study" initial eq_refl).
  reflexivity.
Defined.

(** ** The start of a run *)

(** Code that neither reads nor changes the state. *)
Lemma bind_pure {A B : Type} (m : M A) (k : A -> M B) s :
  indep m -> respects eq m ->
  bind m k s = match fst (m initial) with
               | inr a => k a s
               | inl e => (inl e, s)
               end.
Proof.
  intros Hi Hp. rewrite bind_run, (Hi s initial), <- (Hp s). reflexivity.
Qed.

Lemma get_token_indep w : indep (_get_token w).
Proof. unfold _get_token. indep_tac. Qed.
Lemma get_token_pure w : respects eq (_get_token w).
Proof. unfold _get_token. respects_tac fail. Qed.

Lemma user_indep w token : indep (_user w token).
Proof. unfold _user. indep_tac. Qed.
Lemma user_pure w token : respects eq (_user w token).
Proof. unfold _user. respects_tac fail. Qed.

Lemma input_data_indep w : indep (_input_data w).
Proof. unfold _input_data. indep_tac. Qed.
Lemma input_data_pure w : respects eq (_input_data w).
Proof. unfold _input_data. respects_tac fail. Qed.

Lemma get_program_project_indep input_data : indep (_get_program_project input_data).
Proof. unfold _get_program_project, py_split_dash. indep_tac. Qed.
Lemma get_program_project_pure input_data :
  respects eq (_get_program_project input_data).
Proof. unfold _get_program_project, py_split_dash. respects_tac fail. Qed.

Lemma unpack2_indep parts : indep (unpack2 parts).
Proof. unfold unpack2. indep_tac. Qed.
Lemma unpack2_pure parts : respects eq (unpack2 parts).
Proof. unfold unpack2. respects_tac fail. Qed.

(** Rewrites the leading step of a run of the start of [_main]. *)
Ltac start_step :=
  first [ rewrite (bind_pure _ _ _ (get_token_indep _) (get_token_pure _))
        | rewrite (bind_pure _ _ _ (user_indep _ _) (user_pure _ _))
        | rewrite (bind_pure _ _ _ (input_data_indep _) (input_data_pure _))
        | rewrite (bind_pure _ _ _ (get_program_project_indep _) (get_program_project_pure _))
        | rewrite (bind_pure _ _ _ (unpack2_indep _) (unpack2_pure _)) ].

(** A run whose start succeeds goes on with the rest of the script, on a
    new output record. *)
Lemma start_then_ok w rest user input_data program project :
  session w = Ok (user, input_data, program, project) ->
  start_then w rest initial = rest user input_data program project (fresh user).
Proof.
  unfold session, start_then. intros H.
  repeat start_step.
  rewrite (bind_pure _ _ _ (get_token_indep _) (get_token_pure _)) in H.
  destruct (fst (_get_token w initial)) as [e|token]; [discriminate|].
  cbv beta iota in H |- *.
  repeat start_step.
  rewrite (bind_pure _ _ _ (user_indep _ _) (user_pure _ _)) in H.
  destruct (fst (_user w token initial)) as [e|u]; [discriminate|].
  cbv beta iota in H |- *.
  rewrite (bind_pure _ _ _ (input_data_indep _) (input_data_pure _)) in H.
  rewrite (@bind_ok _ _ (new_output u) _ initial tt eq_refl).
  change (snd (new_output u initial)) with (fresh u).
  repeat start_step.
  destruct (fst (_input_data w initial)) as [e|i]; [discriminate|].
  cbv beta iota in H |- *.
  rewrite (bind_pure _ _ _ (get_program_project_indep _) (get_program_project_pure _)) in H.
  repeat start_step.
  destruct (fst (_get_program_project i initial)) as [e|parts]; [discriminate|].
  cbv beta iota in H |- *.
  rewrite (bind_pure _ _ _ (unpack2_indep _) (unpack2_pure _)) in H.
  repeat start_step.
  destruct (fst (unpack2 parts initial)) as [e|[p pr]]; [discriminate|].
  simpl in H. inversion H; subst. reflexivity.
Qed.

(** A run whose start raises ends there: nothing has happened outside
    the process. *)
Lemma start_then_err w rest e :
  session w = Err e ->
  fst (start_then w rest initial) = Err e /\
  trace (snd (start_then w rest initial)) = [].
Proof.
  unfold session, start_then. intros H.
  repeat start_step.
  rewrite (bind_pure _ _ _ (get_token_indep _) (get_token_pure _)) in H.
  destruct (fst (_get_token w initial)) as [e0|token];
    [inversion H; subst; split; reflexivity|].
  cbv beta iota in H |- *.
  repeat start_step.
  rewrite (bind_pure _ _ _ (user_indep _ _) (user_pure _ _)) in H.
  destruct (fst (_user w token initial)) as [e0|u];
    [inversion H; subst; split; reflexivity|].
  cbv beta iota in H |- *.
  rewrite (bind_pure _ _ _ (input_data_indep _) (input_data_pure _)) in H.
  rewrite (@bind_ok _ _ (new_output u) _ initial tt eq_refl).
  change (snd (new_output u initial)) with (fresh u).
  repeat start_step.
  destruct (fst (_input_data w initial)) as [e0|i];
    [inversion H; subst; split; reflexivity|].
  cbv beta iota in H |- *.
  rewrite (bind_pure _ _ _ (get_program_project_indep _) (get_program_project_pure _)) in H.
  repeat start_step.
  destruct (fst (_get_program_project i initial)) as [e0|parts];
    [inversion H; subst; split; reflexivity|].
  cbv beta iota in H |- *.
  rewrite (bind_pure _ _ _ (unpack2_indep _) (unpack2_pure _)) in H.
  repeat start_step.
  destruct (fst (unpack2 parts initial)) as [e0|[p pr]];
    [inversion H; subst; split; reflexivity|].
  discriminate H.
Qed.

Lemma fhir_import_main_shape w :
  fhir_import._main w =
  start_then w (fun user input_data program project =>
    import_steps w input_data program project user ;; print_out w).
Proof. reflexivity. Qed.

Lemma fhir_import_export_main_shape w :
  fhir_import_export._main w =
  start_then w (fun user input_data program project =>
    method <- lift (dict_get input_data "method") ;;
    assert_ (truthy method) "input data must contain a `method`" ;;
    lowered <- py_lower method ;;
    (if String.eqb lowered "put"
     then fhir_import_export._put w input_data program project user
     else
       lowered <- py_lower method ;;
       if String.eqb lowered "get"
       then
         object_id <- fhir_import_export._get w input_data program project user ;;
         set_object_id object_id
       else raise (Exception ("unknown method " ++ py_str w method))) ;;
    print_out w).
Proof. reflexivity. Qed.

(** ** Where the result line is printed *)

Lemma print_out_run w s :
  print_out w s = (Ok tt, mkState (out s) (trace s ++ [result_line w (out s)])).
Proof. reflexivity. Qed.

Lemma prints_last_print_out w : prints_last w (print_out w).
Proof.
  intros s. rewrite print_out_run. simpl. exists []. split; reflexivity.
Qed.

Lemma prints_last_bind {A : Type} w (m : M A) (k : A -> M unit) :
  respects (emits_only not_print) m ->
  (forall a, prints_last w (k a)) ->
  prints_last w (bind m k).
Proof.
  intros Hm Hk s. rewrite bind_run.
  destruct (Hm s) as [evs [Ht Hp]].
  destruct (fst (m s)) as [e|a]; simpl.
  - exists evs. split; assumption.
  - specialize (Hk a (snd (m s))).
    destruct (fst (k a (snd (m s)))) as [e|u].
    + transitivity (snd (m s)); [exists evs; split; assumption | exact Hk].
    + destruct Hk as [evs' [Ht' Hp']]. exists (evs ++ evs'). split.
      * rewrite Ht', Ht, <- !app_assoc. reflexivity.
      * rewrite forallb_app, Hp, Hp'. reflexivity.
Qed.

Lemma import_steps_no_print w input_data program project user :
  respects (emits_only not_print) (import_steps w input_data program project user).
Proof.
  unfold import_steps, _can_create, _get_object_id, _download_and_unzip, _load_all,
    subprocess_run, log_stream.
  respects_tac emits_prim.
Qed.

Lemma get_no_print w input_data program project user :
  respects (emits_only not_print)
           (fhir_import_export._get w input_data program project user).
Proof.
  unfold fhir_import_export._get, fhir_import_export._can_read.
  respects_tac emits_prim.
Qed.

Lemma fhir_import_prints_last w :
  prints_last w (fhir_import._main w).
Proof.
  unfold fhir_import._main, _get_token, _user, _input_data, _get_program_project,
    py_split_dash, unpack2.
  repeat first
    [ apply prints_last_print_out
    | apply prints_last_bind;
      [ first [ apply import_steps_no_print | respects_tac emits_prim ] | intros ]
    | match goal with
      | |- prints_last _ (let '(_, _) := ?x in _) => destruct x
      end ].
Qed.

Lemma fhir_import_export_prints_last w :
  prints_last w (fhir_import_export._main w).
Proof.
  unfold fhir_import_export._main, fhir_import_export._put, _get_token, _user,
    _input_data, _get_program_project, py_split_dash, unpack2, py_lower.
  repeat first
    [ apply prints_last_print_out
    | apply prints_last_bind;
      [ respects_tac ltac:(first [ apply import_steps_no_print
                                 | apply get_no_print
                                 | emits_prim ])
      | intros ]
    | match goal with
      | |- prints_last _ (let '(_, _) := ?x in _) => destruct x
      end ].
Qed.

(** C9.  A run of either script that completes without raising prints
    exactly one result line, ["[out] "] followed by the serialized output
    record as it stands at the end of the run, and that line is the last
    event of the run: every pipeline step comes before it. *)
Theorem result_line_printed_once :
  forall w,
    (fst (fhir_import._main w initial) = Ok tt ->
     exists evs,
       trace (snd (fhir_import._main w initial)) =
         evs ++ [EPrint ("[out] " ++ json_dumps w
                   (output_json (out (snd (fhir_import._main w initial)))))] /\
       existsb is_print evs = false) /\
    (fst (fhir_import_export._main w initial) = Ok tt ->
     exists evs,
       trace (snd (fhir_import_export._main w initial)) =
         evs ++ [EPrint ("[out] " ++ json_dumps w
                   (output_json (out (snd (fhir_import_export._main w initial)))))] /\
       existsb is_print evs = false).
Proof.
  assert (no : forall evs, forallb not_print evs = true -> existsb is_print evs = false).
  { induction evs as [|ev evs IH]; simpl; [reflexivity|].
    unfold not_print at 1. destruct (is_print ev); simpl; [discriminate | exact IH]. }
  intros w. split; intros H.
  - pose proof (fhir_import_prints_last w initial) as P. rewrite H in P.
    destruct P as [evs [Ht Hp]]. exists evs. split; [exact Ht | apply no, Hp].
  - pose proof (fhir_import_export_prints_last w initial) as P. rewrite H in P.
    destruct P as [evs [Ht Hp]]. exists evs. split; [exact Ht | apply no, Hp].
Qed.

(** A complete import, and a complete export, each print their line last. *)
Lemma result_line_printed_once_witness :
  (exists evs,
     trace (snd (fhir_import._main (demo_world demo_user put_input 0 0 0) initial)) =
       evs ++ [EPrint "[out] user,files,logs"] /\
     existsb is_print evs = false) /\
  (exists evs,
     trace (snd (fhir_import_export._main (demo_world demo_user get_input 0 0 0) initial)) =
       evs ++ [EPrint "[out] user,files,logs,object_id"] /\
     existsb is_print evs = false).
Proof.
  split.
  - apply (proj1 (result_line_printed_once (demo_world demo_user put_input 0 0 0))).
    reflexivity.
  - apply (proj2 (result_line_printed_once (demo_world demo_user get_input 0 0 0))).
    reflexivity.
Defined.

(** ** The two methods of [fhir_import_export] *)

Lemma lower_nonempty m target :
  lower m = target -> target <> "" -> truthy (JStr m) = true.
Proof. destruct m; simpl; [congruence | reflexivity]. Qed.

(** With method ['put'], in any case of letters, [_main] is [_put]
    followed by the print. *)
Lemma export_put_run w user input_data program project m :
  session w = Ok (user, input_data, program, project) ->
  dict_get input_data "method" = Ok (JStr m) ->
  lower m = "put" ->
  fhir_import_export._main w initial =
  (fhir_import_export._put w input_data program project user ;; print_out w)
    (fresh user).
Proof.
  intros Hs Hd Hl.
  rewrite fhir_import_export_main_shape, (start_then_ok _ _ _ _ _ _ Hs).
  rewrite (@bind_ok _ _ (lift (dict_get input_data "method")) _ _ (JStr m))
    by (rewrite Hd; reflexivity).
  rewrite Hd. cbn [lift snd].
  rewrite (lower_nonempty _ _ Hl) by discriminate.
  unfold assert_. rewrite (@bind_ok _ _ (ret tt) _ _ tt) by reflexivity.
  cbn [ret snd py_lower].
  rewrite (@bind_ok _ _ (ret (lower m)) _ _ (lower m)) by reflexivity.
  cbn [ret snd]. rewrite Hl. reflexivity.
Qed.

(** With method ['get'], in any case of letters, [_main] is [_get], the
    assignment of what it returned to [output['object_id']], and the
    print. *)
Lemma export_get_run w user input_data program project m :
  session w = Ok (user, input_data, program, project) ->
  dict_get input_data "method" = Ok (JStr m) ->
  lower m = "get" ->
  fhir_import_export._main w initial =
  ((object_id <- fhir_import_export._get w input_data program project user ;;
    set_object_id object_id) ;;
   print_out w) (fresh user).
Proof.
  intros Hs Hd Hl.
  rewrite fhir_import_export_main_shape, (start_then_ok _ _ _ _ _ _ Hs).
  rewrite (@bind_ok _ _ (lift (dict_get input_data "method")) _ _ (JStr m))
    by (rewrite Hd; reflexivity).
  rewrite Hd. cbn [lift snd].
  rewrite (lower_nonempty _ _ Hl) by discriminate.
  unfold assert_. rewrite (@bind_ok _ _ (ret tt) _ _ tt) by reflexivity.
  cbn [ret snd py_lower].
  rewrite (@bind_ok _ _ (ret (lower m)) _ _ (lower m)) by reflexivity.
  cbn [ret snd]. rewrite Hl.
  change (String.eqb "get" "put") with false. cbv iota.
  unfold bind. cbn [ret String.eqb Ascii.eqb Bool.eqb]. reflexivity.
Qed.

Lemma import_steps_same_object_id w input_data program project user :
  respects same_object_id (import_steps w input_data program project user).
Proof.
  unfold import_steps, _can_create, _get_object_id, _download_and_unzip, _load_all,
    subprocess_run, log_stream.
  respects_tac same_prim.
Qed.

Lemma get_without_read_permission w input_data program project user s :
  returns (fhir_import_export._can_read program project user) false ->
  fst (fhir_import_export._get w input_data program project user s) = Ok JNull.
Proof.
  intros H. unfold fhir_import_export._get.
  rewrite (@bind_ok _ _ _ _ _ false (H s)). reflexivity.
Qed.

(** What [_get] returns once the read permission is granted: the
    ['object_id'] of the upload result, unless the export, the upload or
    the reading of the upload result raises. *)
Lemma get_with_read_permission w input_data program project user s :
  returns (fhir_import_export._can_read program project user) true ->
  fst (fhir_import_export._get w input_data program project user s) =
  match fhir_get w (program ++ "-" ++ project) ("studies/" ++ project) with
  | inl e => Err e
  | inr _ =>
      match cp w ("studies/" ++ project) (program ++ "-" ++ project) with
      | inl e => Err e
      | inr cp_result =>
          match getitem cp_result "msg" with
          | inl e => Err e
          | inr _ => getitem cp_result "object_id"
          end
      end
  end.
Proof.
  intros H. unfold fhir_import_export._get.
  rewrite (@bind_ok _ _ _ _ _ true (H s)). cbn [negb].
  unfold bind, emit, lift, logs_extend, logs_append, ret. cbn [fst snd].
  destruct (fhir_get w (program ++ "-" ++ project) ("studies/" ++ project))
    as [e|exported]; [reflexivity|].
  cbn [fst snd].
  destruct (cp w ("studies/" ++ project) (program ++ "-" ++ project))
    as [e|cp_result]; [reflexivity|].
  cbn [fst snd].
  destruct (getitem cp_result "msg") as [e|msg]; [reflexivity|].
  cbn [fst snd].
  destruct (getitem cp_result "object_id") as [e|object_id]; reflexivity.
Qed.

(** C7.  In [fhir_import_export], for a run that reaches the
    serialization: when the method is ['get'] in any case of letters the
    printed record has the key ['object_id'], and its value is what
    [_get] returned: null when the read-permission check failed, and the
    ['object_id'] of the result of the upload when the check passed.
    When the method is ['put'] the printed record has no such key. *)
Theorem object_id_key_on_export_only :
  forall w user input_data program project m,
    session w = Ok (user, input_data, program, project) ->
    dict_get input_data "method" = Ok (JStr m) ->
    fst (fhir_import_export._main w initial) = Ok tt ->
    let final := snd (fhir_import_export._main w initial) in
    let printed := output_json (out final) in
    (exists evs,
       trace final = evs ++ [EPrint ("[out] " ++ json_dumps w printed)]) /\
    (lower m = "get" ->
     In "object_id" (keys printed) /\
     (returns (fhir_import_export._can_read program project user) false ->
      field "object_id" printed = Some JNull) /\
     (exists returned,
         fst (fhir_import_export._get w input_data program project user (fresh user))
           = Ok returned /\
         field "object_id" printed = Some returned) /\
     (returns (fhir_import_export._can_read program project user) true ->
      exists cp_result uploaded,
        cp w ("studies/" ++ project) (program ++ "-" ++ project) = Ok cp_result /\
        getitem cp_result "object_id" = Ok uploaded /\
        field "object_id" printed = Some uploaded)) /\
    (lower m = "put" ->
     ~ In "object_id" (keys printed) /\ field "object_id" printed = None).
Proof.
  intros w user input_data program project m Hs Hd Hok final printed.
  subst printed final.
  split; [|split].
  - pose proof (fhir_import_export_prints_last w initial) as P. rewrite Hok in P.
    destruct P as [evs [Ht _]]. exists evs. exact Ht.
  - intros Hl. rewrite (export_get_run _ _ _ _ _ _ Hs Hd Hl) in *.
    pose proof (get_without_read_permission w input_data program project user
                  (fresh user)) as Hnull.
    pose proof (get_with_read_permission w input_data program project user
                  (fresh user)) as Hup.
    unfold bind in *.
    destruct (fhir_import_export._get w input_data program project user (fresh user))
      as [[e|oid] s1]; [discriminate Hok|].
    cbn [fst snd set_object_id print_out emit out trace
         o_user o_files o_logs o_object_id output_json keys field lookup
         app map] in *.
    split; [right; right; right; left; reflexivity|].
    split; [|split].
    + intros Hr. specialize (Hnull Hr). inversion Hnull. reflexivity.
    + exists oid. split; reflexivity.
    + intros Hr. specialize (Hup Hr).
      destruct (fhir_get w (program ++ "-" ++ project) ("studies/" ++ project))
        as [e|exported]; [discriminate Hup|].
      destruct (cp w ("studies/" ++ project) (program ++ "-" ++ project))
        as [e|cp_result]; [discriminate Hup|].
      destruct (getitem cp_result "msg") as [e|msg]; [discriminate Hup|].
      exists cp_result, oid. split; [reflexivity|]. split; [symmetry; exact Hup|].
      reflexivity.
  - intros Hl. rewrite (export_put_run _ _ _ _ _ _ Hs Hd Hl) in *.
    pose proof (import_steps_same_object_id w input_data program project user
                  (fresh user)) as Hsame.
    unfold bind, fhir_import_export._put in *.
    destruct (import_steps w input_data program project user (fresh user))
      as [[e|u] s1]; [discriminate Hok|].
    unfold same_object_id in Hsame. simpl in *. unfold output_json.
    rewrite Hsame. simpl. split; [|reflexivity].
    intros [H|[H|[H|[]]]]; discriminate H.
Qed.

(** An export by a user who may read prints the object id the upload
    returned; an export by a user who may not prints null; an import
    prints no object id. *)
Lemma object_id_key_on_export_only_witness :
  (In "object_id"
      (keys (output_json
               (out (snd (fhir_import_export._main
                            (demo_world demo_user get_input 0 0 0) initial))))) /\
   exists cp_result uploaded,
     cp (demo_world demo_user get_input 0 0 0) "studies/study" "aced-study"
       = Ok cp_result /\
     getitem cp_result "object_id" = Ok uploaded /\
     field "object_id"
           (output_json
              (out (snd (fhir_import_export._main
                           (demo_world demo_user get_input 0 0 0) initial))))
       = Some uploaded) /\
  field "object_id"
        (output_json
           (out (snd (fhir_import_export._main
                        (demo_world no_rights get_input 0 0 0) initial))))
    = Some JNull /\
  field "object_id"
        (output_json
           (out (snd (fhir_import_export._main
                        (demo_world demo_user put_input 0 0 0) initial)))) = None.
Proof.
  split; [|split].
  - destruct (proj1 (proj2 (object_id_key_on_export_only
                              (demo_world demo_user get_input 0 0 0)
                              demo_user get_input "aced" "study" "Get"
                              eq_refl eq_refl eq_refl))
                eq_refl) as [Hin [_ [_ Hup]]].
    split; [exact Hin|].
    apply Hup.
    apply (returns_of_indep _ _ initial (can_read_indep "aced" "study" demo_user)).
    reflexivity.
  - destruct (proj1 (proj2 (object_id_key_on_export_only
                              (demo_world no_rights get_input 0 0 0)
                              no_rights get_input "aced" "study" "Get"
                              eq_refl eq_refl eq_refl))
                eq_refl) as [_ [Hnull _]].
    apply Hnull.
    apply (returns_of_indep _ _ initial (can_read_indep "aced" "study" no_rights)).
    reflexivity.
  - apply (object_id_key_on_export_only
             (demo_world demo_user put_input 0 0 0)
             demo_user put_input "aced" "study" "PUT"
             eq_refl eq_refl eq_refl).
    reflexivity.
Defined.

(** ** The dispatch on the method *)

Lemma session_input w user input_data program project :
  session w = Ok (user, input_data, program, project) ->
  input_of w = Ok input_data.
Proof.
  unfold session, input_of. intros H.
  rewrite (bind_pure _ _ _ (get_token_indep _) (get_token_pure _)) in H.
  destruct (fst (_get_token w initial)) as [e|token]; [discriminate|].
  cbv beta iota in H.
  rewrite (bind_pure _ _ _ (user_indep _ _) (user_pure _ _)) in H.
  destruct (fst (_user w token initial)) as [e|u]; [discriminate|].
  cbv beta iota in H.
  rewrite (bind_pure _ _ _ (input_data_indep _) (input_data_pure _)) in H.
  destruct (fst (_input_data w initial)) as [e|i]; [discriminate|].
  cbv beta iota in H.
  rewrite (bind_pure _ _ _ (get_program_project_indep _) (get_program_project_pure _)) in H.
  destruct (fst (_get_program_project i initial)) as [e|parts]; [discriminate|].
  cbv beta iota in H.
  rewrite (bind_pure _ _ _ (unpack2_indep _) (unpack2_pure _)) in H.
  destruct (fst (unpack2 parts initial)) as [e|[p pr]]; [discriminate|].
  simpl in H. inversion H; subst. reflexivity.
Qed.

(** A method that is missing, [None] or empty fails the assertion. *)
Lemma export_method_missing w user input_data program project v :
  session w = Ok (user, input_data, program, project) ->
  dict_get input_data "method" = Ok v ->
  truthy v = false ->
  fhir_import_export._main w initial =
  (Err (AssertionError "input data must contain a `method`"), fresh user).
Proof.
  intros Hs Hd Ht.
  rewrite fhir_import_export_main_shape, (start_then_ok _ _ _ _ _ _ Hs).
  rewrite (@bind_ok _ _ (lift (dict_get input_data "method")) _ _ v)
    by (rewrite Hd; reflexivity).
  rewrite Hd. cbn [lift snd]. rewrite Ht. reflexivity.
Qed.

(** A method that lowercases to neither ['put'] nor ['get'] is unknown. *)
Lemma export_method_unknown w user input_data program project m :
  session w = Ok (user, input_data, program, project) ->
  dict_get input_data "method" = Ok (JStr m) ->
  m <> "" -> lower m <> "put" -> lower m <> "get" ->
  fhir_import_export._main w initial =
  (Err (Exception ("unknown method " ++ m)), fresh user).
Proof.
  intros Hs Hd Hm Hp Hg.
  rewrite fhir_import_export_main_shape, (start_then_ok _ _ _ _ _ _ Hs).
  rewrite (@bind_ok _ _ (lift (dict_get input_data "method")) _ _ (JStr m))
    by (rewrite Hd; reflexivity).
  rewrite Hd. cbn [lift snd].
  assert (Ht : truthy (JStr m) = true) by (destruct m; [contradiction | reflexivity]).
  rewrite Ht. apply String.eqb_neq in Hp, Hg.
  unfold bind. cbn [assert_ py_lower ret py_str]. rewrite Hp, Hg. reflexivity.
Qed.




(** ** The permission check *)

(** What [_can_create] returns: the first five checks one after the
    other, the sixth under the fifth. *)
Lemma can_create_result program user s :
  fst (_can_create program user s) =
  and_then (resource_check user ("/programs/" ++ program)) (fun c1 =>
  and_then (resource_check user "/services/sheepdog/submission/program") (fun c2 =>
  and_then (resource_check user "/services/sheepdog/submission/project") (fun c3 =>
  and_then (resource_check user (projects_of program)) (fun c4 =>
  and_then (authz_key_check user (projects_of program)) (fun c5 =>
  if c5
  then and_then (authz_grant_check user (projects_of program) sheepdog_any_method)
                (fun c6 => Ok (c1 && c2 && c3 && c4 && c6))
  else Ok false))))).
Proof.
  unfold _can_create, resource_check, authz_key_check, authz_grant_check, projects_of.
  generalize ("/programs/" ++ program ++ " not found in user resources")%string.
  generalize ("/programs/" ++ program ++ "/projects")%string.
  generalize ("/programs/" ++ program)%string.
  intros P K msg.
  destruct (getitem user "resources") as [e|res]; [reflexivity|].
  unfold bind at 1. cbn [lift].
  destruct (str_in P res) as [e|c1]; [reflexivity|].
  destruct (str_in "/services/sheepdog/submission/program" res) as [e|c2] eqn:E2;
    [unfold bind, lift, and_then; cbn; rewrite E2; destruct c1; reflexivity|].
  destruct (str_in "/services/sheepdog/submission/project" res) as [e|c3] eqn:E3;
    [unfold bind, lift, and_then; cbn; rewrite E2, E3;
     destruct c1, c2; reflexivity|].
  destruct (str_in K res) as [e|c4] eqn:E4;
    [unfold bind, lift, and_then; cbn; rewrite E2, E3, E4;
     destruct c1, c2, c3; reflexivity|].
  destruct (getitem user "authz") as [e|authz];
    [unfold bind, lift, and_then; cbn; rewrite E2, E3, E4;
     destruct c1, c2, c3, c4; reflexivity|].
  destruct (str_in K authz) as [e|c5] eqn:E5;
    [unfold bind, lift, and_then; cbn; rewrite E2, E3, E4, E5;
     destruct c1, c2, c3, c4; reflexivity|].
  destruct c5;
    [|unfold bind, lift, and_then; cbn; rewrite E2, E3, E4, E5;
      destruct c1, c2, c3, c4; reflexivity].
  destruct (getitem authz K) as [e|granted] eqn:E6;
    [unfold bind, lift, and_then; cbn; rewrite E2, E3, E4, E5, E6;
     destruct c1, c2, c3, c4; reflexivity|].
  destruct (permission_in sheepdog_any_method granted) as [e|c6] eqn:E7;
    unfold bind, lift, and_then; cbn; rewrite E2, E3, E4, E5, E6, E7;
    destruct c1, c2, c3, c4; try destruct c6; reflexivity.
Qed.

(** What [_can_create] writes: one line for each of the three required
    resources whatever the other checks gave, then either the line of a
    missing [authz] key or the line of the sixth check. *)
Lemma can_create_run program user s c1 c2 c3 c4 c5 :
  resource_check user ("/programs/" ++ program) = Ok c1 ->
  resource_check user "/services/sheepdog/submission/program" = Ok c2 ->
  resource_check user "/services/sheepdog/submission/project" = Ok c3 ->
  resource_check user (projects_of program) = Ok c4 ->
  authz_key_check user (projects_of program) = Ok c5 ->
  (c5 = false ->
   _can_create program user s =
   (Ok false,
    advance s (resource_lines program c1 c2 c3 c4
               ++ [JStr (projects_of program ++ " not found in user authz")]) [])) /\
  (c5 = true ->
   forall c6,
     authz_grant_check user (projects_of program) sheepdog_any_method = Ok c6 ->
     _can_create program user s =
     (Ok (c1 && c2 && c3 && c4 && c6),
      advance s (resource_lines program c1 c2 c3 c4
                 ++ [grant_line (projects_of program) c6]) [])).
Proof.
  unfold resource_check, authz_key_check, authz_grant_check.
  destruct s as [[u f l o] t].
  unfold _can_create, resource_lines, program_line, resource_line, grant_line,
    projects_of, advance.
  destruct (getitem user "resources") as [e|res]; [discriminate|].
  destruct (getitem user "authz") as [e|authz]; [discriminate|].
  intros H1 H2 H3 H4 H5.
  unfold bind, lift, log, logs_append, ret. cbn [for_acc out trace o_user o_files o_logs o_object_id].
  rewrite H1, H2, H3, H4, H5.
  split.
  - intros ->. destruct c1, c2, c3, c4; cbn;
      rewrite ?app_nil_r, <- ?app_assoc; reflexivity.
  - intros -> c6.
    destruct (getitem authz ("/programs/" ++ program ++ "/projects")) as [e|granted];
      [discriminate|].
    intros H6. cbn [negb]. rewrite H6.
    destruct c1, c2, c3, c4, c6; cbn;
      rewrite ?app_nil_r, <- ?app_assoc; reflexivity.
Qed.

(** C1, amended.  [_can_create] returns [True] if and only if each of
    its six membership checks passes.  The first five checks are made on
    every run, whatever the earlier ones gave: each of the three required
    resources leaves its own line in the log.  The sixth check, the
    membership of [{'method': '*', 'service': 'sheepdog'}] in
    [user['authz'][...]], is made only when the fifth passed, that is
    when the key is in [user['authz']]; when the key is missing the
    function logs that and returns [False]. *)
Theorem can_create_iff_checks :
  forall program user s,
    (fst (_can_create program user s) = Ok true <-> can_create_checks program user) /\
    (forall c1 c2 c3 c4 c5,
        resource_check user ("/programs/" ++ program) = Ok c1 ->
        resource_check user "/services/sheepdog/submission/program" = Ok c2 ->
        resource_check user "/services/sheepdog/submission/project" = Ok c3 ->
        resource_check user (projects_of program) = Ok c4 ->
        authz_key_check user (projects_of program) = Ok c5 ->
        (c5 = false ->
         _can_create program user s =
         (Ok false,
          advance s (resource_lines program c1 c2 c3 c4
                     ++ [JStr (projects_of program ++ " not found in user authz")]) [])) /\
        (c5 = true ->
         forall c6,
           authz_grant_check user (projects_of program) sheepdog_any_method = Ok c6 ->
           _can_create program user s =
           (Ok (c1 && c2 && c3 && c4 && c6),
            advance s (resource_lines program c1 c2 c3 c4
                       ++ [grant_line (projects_of program) c6]) []))).
Proof.
  intros program user s. split.
  - rewrite can_create_result. unfold can_create_checks, and_then.
    generalize (resource_check user ("/programs/" ++ program))
               (resource_check user "/services/sheepdog/submission/program")
               (resource_check user "/services/sheepdog/submission/project")
               (resource_check user (projects_of program))
               (authz_key_check user (projects_of program))
               (authz_grant_check user (projects_of program) sheepdog_any_method).
    intros r1 r2 r3 r4 r5 r6.
    destruct r1 as [e1|[|]]; [| |]; (split; [intros H | intros (H1&H2&H3&H4&H5&H6)]);
      try congruence;
      destruct r2 as [e2|[|]]; try congruence;
      destruct r3 as [e3|[|]]; try congruence;
      destruct r4 as [e4|[|]]; try congruence;
      destruct r5 as [e5|[|]]; try congruence;
      destruct r6 as [e6|[|]]; try congruence;
      cbn in *; try congruence; repeat split; reflexivity.
  - intros c1 c2 c3 c4 c5. apply can_create_run.
Qed.

(** The demo user passes the six checks for program [aced]. *)
Lemma can_create_iff_checks_witness :
  fst (_can_create "aced" demo_user initial) = Ok true /\
  _can_create "aced" resources_only initial =
  (Ok false,
   advance initial
     [JStr "HAS RESOURCE /services/sheepdog/submission/program";
      JStr "HAS RESOURCE /services/sheepdog/submission/project";
      JStr "HAS RESOURCE /programs/aced/projects";
      JStr "/programs/aced/projects not found in user authz"] []).
Proof.
  split.
  - apply (proj1 (can_create_iff_checks "aced" demo_user initial)).
    repeat split; reflexivity.
  - apply (proj1 (proj2 (can_create_iff_checks "aced" resources_only initial)
                    true true true true false
                    eq_refl eq_refl eq_refl eq_refl eq_refl)).
    reflexivity.
Defined.

(** C1 as stated fails at the user [resources_only] and the program
    ["aced"]: evaluating the sixth check although the key is missing from
    [user['authz']] raises [KeyError], while [_can_create] returns
    [False] without making that check. *)
Lemma can_create_guards_the_sixth_check :
  fst (_can_create "aced" resources_only initial) = Ok false /\
  can_create_flat "aced" resources_only = Err (KeyError "/programs/aced/projects") /\
  ~ can_create_is_flat.
Proof.
  split; [reflexivity|]. split; [reflexivity|].
  intros claim. specialize (claim "aced" resources_only initial).
  discriminate claim.
Qed.

(** ** The import pipeline *)

Lemma can_create_trace program user s :
  trace (snd (_can_create program user s)) = trace s.
Proof. apply silent_trace, can_create_silent. Qed.

Lemma can_create_files program user s :
  o_files (out (snd (_can_create program user s))) = o_files (out s).
Proof. apply (can_create_same_files program user s). Qed.

(** Without the permission the pipeline stops after the check. *)
Lemma import_steps_denied w input_data program project user s :
  fst (_can_create program user s) <> Ok true ->
  trace (snd (import_steps w input_data program project user s)) = trace s /\
  o_files (out (snd (import_steps w input_data program project user s))) =
    o_files (out s).
Proof.
  intros H. unfold import_steps. rewrite bind_run.
  pose proof (can_create_trace program user s) as Ht.
  pose proof (can_create_files program user s) as Hf.
  destruct (fst (_can_create program user s)) as [e|[|]].
  - split; assumption.
  - contradiction H; reflexivity.
  - rewrite bind_run, log_run.
    cbn [fst snd ret advance trace out o_files]. rewrite Ht, Hf, app_nil_r.
    split; reflexivity.
Qed.

(** With the permission the pipeline goes on to the object id. *)
Lemma import_steps_granted w input_data program project user s :
  fst (_can_create program user s) = Ok true ->
  import_steps w input_data program project user s =
  (object_id <- _get_object_id input_data ;;
   if truthy object_id
   then
     ok <- _download_and_unzip w object_id (study_dir project) ;;
     if ok
     then
       emit (EGlob (study_dir project)) ;;
       for_each (glob w (study_dir project)) files_append ;;
       _ <- _load_all w project (program ++ "-" ++ project) ;;
       ret tt
     else ret tt
   else log "OBJECT ID NOT FOUND")
    (advance (snd (_can_create program user s)) [JStr "CAN CREATE: True"] []).
Proof.
  intros H. unfold import_steps.
  rewrite (bind_ok _ _ _ _ H).
  rewrite (bind_ok _ _ _ tt) by reflexivity.
  rewrite log_run. reflexivity.
Qed.

(** The load step, after a directory listing. *)
Lemma list_and_load_run w program project s :
  (emit (EGlob (study_dir project)) ;;
   for_each (glob w (study_dir project)) files_append ;;
   _ <- _load_all w project (program ++ "-" ++ project) ;;
   ret tt) s =
  let ld := ESubprocess load_cmd (load_env project (program ++ "-" ++ project)) in
  let listed :=
    mkState (mkOutput (o_user (out s)) (o_files (out s) ++ glob w (study_dir project))
                      (o_logs (out s)) (o_object_id (out s)))
            (trace s ++ [EGlob (study_dir project)]) in
  match spawn w load_cmd (load_env project (program ++ "-" ++ project)) with
  | inl e => (Err e, advance listed [JStr "LOADING: ['./load_all']"] [ld])
  | inr (code, sout, serr) =>
      (Ok tt,
       advance listed
         [JStr "LOADING: ['./load_all']";
          JStr ((if Z.eqb code 0 then "LOADED " else "ERROR LOADING ") ++ project);
          JStr serr; JStr sout] [ld])
  end.
Proof.
  cbv zeta.
  rewrite (bind_ok _ _ _ tt) by reflexivity.
  rewrite (bind_ok _ _ _ tt) by (rewrite for_each_files_append; reflexivity).
  rewrite for_each_files_append, emit_run. cbn [snd].
  rewrite bind_run, load_all_run. cbv zeta.
  destruct s as [[u f l o] t]. cbn [advance out trace o_user o_files o_logs o_object_id].
  rewrite !app_nil_r.
  destruct (spawn w load_cmd (load_env project (program ++ "-" ++ project)))
    as [e|[[code sout] serr]]; [reflexivity|].
  destruct (Z.eqb code 0); reflexivity.
Qed.

(** The events of the import pipeline: none, or the download alone, or
    the download and the unzip, or the download, the unzip, the listing
    and the load, each step only after the one before ended with code 0;
    the files are listed only in the last case. *)
Lemma import_steps_trace w input_data program project user s :
  let s' := snd (import_steps w input_data program project user s) in
  (trace s' = trace s /\ o_files (out s') = o_files (out s)) \/
  exists object_id,
    fst (_can_create program user s) = Ok true /\
    dict_get input_data "object_id" = Ok object_id /\
    truthy object_id = true /\
    let dl := ESubprocess (download_cmd w object_id) [] in
    let uz := ESubprocess (unzip_cmd w object_id (study_dir project)) [] in
    let ld := ESubprocess load_cmd (load_env project (program ++ "-" ++ project)) in
    let dl_code := exit_code (spawn w (download_cmd w object_id) []) in
    let uz_code := exit_code (spawn w (unzip_cmd w object_id (study_dir project)) []) in
    (dl_code <> Some 0%Z /\ trace s' = trace s ++ [dl] /\
     o_files (out s') = o_files (out s)) \/
    (dl_code = Some 0%Z /\ uz_code <> Some 0%Z /\ trace s' = trace s ++ [dl; uz] /\
     o_files (out s') = o_files (out s)) \/
    (dl_code = Some 0%Z /\ uz_code = Some 0%Z /\
     trace s' = trace s ++ [dl; uz; EGlob (study_dir project); ld] /\
     o_files (out s') = o_files (out s) ++ glob w (study_dir project)).
Proof.
  cbv zeta.
  destruct (fst (_can_create program user s)) as [e|[|]] eqn:Hc;
    [left; apply import_steps_denied; rewrite Hc; discriminate
    | | left; apply import_steps_denied; rewrite Hc; discriminate].
  rewrite (import_steps_granted _ _ _ _ _ _ Hc).
  pose proof (can_create_trace program user s) as Ht.
  pose proof (can_create_files program user s) as Hf.
  set (s1 := snd (_can_create program user s)) in *.
  unfold _get_object_id. rewrite bind_run. cbn [lift fst snd].
  destruct (dict_get input_data "object_id") as [e|object_id] eqn:Ho.
  { left. cbn [snd advance trace out o_files]. rewrite Ht, Hf, app_nil_r. split; reflexivity. }
  destruct (truthy object_id) eqn:Hy.
  2:{ left. rewrite log_run. cbn [snd advance trace out o_files].
      rewrite Ht, Hf, !app_nil_r. split; reflexivity. }
  right. exists object_id. split; [reflexivity|]. split; [reflexivity|].
  split; [exact Hy|].
  rewrite bind_run, download_and_unzip_run. cbv zeta.
  destruct (spawn w (download_cmd w object_id) []) as [e|[[c1 o1] e1]].
  { left. cbn [fst snd advance trace out o_files exit_code].
    rewrite Ht, Hf, !app_nil_r. repeat split; first [discriminate | reflexivity]. }
  destruct (Z.eqb_spec c1 0) as [E1|E1].
  2:{ left. cbn [fst snd ret advance trace out o_files exit_code].
      rewrite Ht, Hf, !app_nil_r. repeat split; first [congruence | reflexivity]. }
  subst c1. right.
  destruct (spawn w (unzip_cmd w object_id (study_dir project)) []) as [e|[[c2 o2] e2]].
  { left. cbn [fst snd advance trace out o_files exit_code].
    rewrite Ht, Hf, !app_nil_r. repeat split; first [discriminate | reflexivity]. }
  destruct (Z.eqb_spec c2 0) as [E2|E2].
  2:{ left. cbn [fst snd ret advance trace out o_files exit_code].
      rewrite Ht, Hf, !app_nil_r. repeat split; first [congruence | reflexivity]. }
  subst c2. right.
  cbn [fst snd]. rewrite list_and_load_run. cbv zeta.
  cbn [exit_code]. split; [reflexivity|]. split; [reflexivity|].
  destruct (spawn w load_cmd (load_env project (program ++ "-" ++ project)))
    as [e|[[c3 o3] e3]];
    cbn [fst snd advance trace out o_files o_user o_logs o_object_id];
    rewrite Ht, Hf, ?app_nil_r, <- ?app_assoc; split; reflexivity.
Qed.

Lemma download_and_unzip_returns_true w object_id file_path :
  exit_code (spawn w (download_cmd w object_id) []) = Some 0%Z ->
  exit_code (spawn w (unzip_cmd w object_id file_path) []) = Some 0%Z ->
  returns (_download_and_unzip w object_id file_path) true.
Proof.
  intros H1 H2 s. rewrite download_and_unzip_run. cbv zeta.
  destruct (spawn w (download_cmd w object_id) []) as [e|[[c1 o1] e1]];
    [discriminate|].
  destruct (spawn w (unzip_cmd w object_id file_path) []) as [e|[[c2 o2] e2]];
    [discriminate|].
  simpl in H1, H2. inversion H1; inversion H2; subst. reflexivity.
Qed.

Lemma starts_load_download w object_id env :
  starts Load (ESubprocess (download_cmd w object_id) env) = false.
Proof. rewrite download_cmd_shape. reflexivity. Qed.

Lemma starts_load_unzip w object_id file_path env :
  starts Load (ESubprocess (unzip_cmd w object_id file_path) env) = false.
Proof.
  destruct (unzip_cmd_shape w object_id file_path) as [rest H].
  rewrite H. reflexivity.
Qed.

(** The load child is started by the import pipeline only under the
    three guards. *)
Lemma import_steps_load_guarded w input_data program project user s evs :
  trace (snd (import_steps w input_data program project user s)) = trace s ++ evs ->
  existsb (starts Load) evs = true ->
  import_guards w user input_data program project.
Proof.
  intros Ht Hl.
  destruct (import_steps_trace w input_data program project user s)
    as [[H _] | [object_id [Hc [Ho [Hy H]]]]].
  - assert (E : evs = [])
      by (apply (app_inv_head (trace s)); rewrite app_nil_r; congruence).
    subst evs. discriminate Hl.
  - cbv zeta in H.
    destruct H as [[_ [H _]] | [[_ [_ [H _]]] | [H1 [H2 _]]]].
    + rewrite Ht in H. apply app_inv_head in H. subst evs.
      cbn [existsb] in Hl. rewrite starts_load_download in Hl. discriminate Hl.
    + rewrite Ht in H. apply app_inv_head in H. subst evs.
      cbn [existsb] in Hl. rewrite starts_load_download, starts_load_unzip in Hl.
      discriminate Hl.
    + split.
      * apply (returns_of_indep _ _ s (can_create_indep program user) Hc).
      * exists object_id. split; [exact Ho|]. split; [exact Hy|].
        apply download_and_unzip_returns_true; assumption.
Qed.

(** ** Whole runs *)

Lemma then_print_trace w (m : M unit) s :
  trace (snd ((m ;; print_out w) s)) =
  trace (snd (m s)) ++
  match fst (m s) with
  | inr _ => [result_line w (out (snd (m s)))]
  | inl _ => []
  end.
Proof.
  rewrite bind_run. destruct (fst (m s)) as [e|u].
  - cbn [snd]. symmetry. apply app_nil_r.
  - rewrite print_out_run. reflexivity.
Qed.

(** A method that is truthy and no [str] has no [lower]. *)
Lemma export_method_not_string w user input_data program project v :
  session w = Ok (user, input_data, program, project) ->
  dict_get input_data "method" = Ok v ->
  truthy v = true ->
  (forall m, v <> JStr m) ->
  fhir_import_export._main w initial = (Err AttributeError, fresh user).
Proof.
  intros Hs Hd Ht Hv.
  rewrite fhir_import_export_main_shape, (start_then_ok _ _ _ _ _ _ Hs).
  rewrite (@bind_ok _ _ (lift (dict_get input_data "method")) _ _ v)
    by (rewrite Hd; reflexivity).
  rewrite Hd. cbn [lift snd]. rewrite Ht.
  destruct v as [| b | n | m | l | kvs]; try reflexivity.
  contradiction (Hv m). reflexivity.
Qed.

(** The runs of [fhir_import_export._main]: it raises before any
    pipeline step, or it is the import pipeline, or it is the export
    pipeline. *)
Lemma export_main_cases w :
  trace (snd (fhir_import_export._main w initial)) = [] \/
  (exists user input_data program project,
      session w = Ok (user, input_data, program, project) /\
      fhir_import_export._main w initial =
      put_pipeline w input_data program project user (fresh user)) \/
  (exists user input_data program project,
      session w = Ok (user, input_data, program, project) /\
      fhir_import_export._main w initial =
      get_pipeline w input_data program project user (fresh user)).
Proof.
  destruct (session w) as [e|[[[u i] p] pr]] eqn:Hs.
  { left. rewrite fhir_import_export_main_shape.
    match goal with
    | |- context [start_then w ?rest] =>
        destruct (start_then_err w rest e Hs) as [_ Ht]
    end.
    exact Ht. }
  destruct (dict_get i "method") as [e|v] eqn:Hd.
  { left. rewrite fhir_import_export_main_shape, (start_then_ok _ _ _ _ _ _ Hs).
    unfold bind at 1. rewrite Hd. reflexivity. }
  destruct (truthy v) eqn:Ht.
  2:{ left. rewrite (export_method_missing _ _ _ _ _ _ Hs Hd Ht). reflexivity. }
  assert (Hv : (exists m, v = JStr m) \/ (forall m, v <> JStr m)).
  { destruct v; try (right; intros m; discriminate). left. eexists. reflexivity. }
  destruct Hv as [[m Hv] | Hv].
  2:{ left. rewrite (export_method_not_string _ _ _ _ _ _ Hs Hd Ht Hv). reflexivity. }
  subst v.
  destruct (String.eqb_spec (lower m) "put") as [Hp|Hp].
  { right. left. exists u, i, p, pr. split; [reflexivity|].
    apply (export_put_run _ _ _ _ _ _ Hs Hd Hp). }
  destruct (String.eqb_spec (lower m) "get") as [Hg|Hg].
  { right. right. exists u, i, p, pr. split; [reflexivity|].
    apply (export_get_run _ _ _ _ _ _ Hs Hd Hg). }
  left.
  assert (Hm : m <> "") by (intros ->; discriminate Ht).
  rewrite (export_method_unknown _ _ _ _ _ _ Hs Hd Hm Hp Hg). reflexivity.
Qed.

(** The export pipeline starts no child process. *)
Lemma get_pipeline_no_subprocess w input_data program project user :
  respects (emits_only (fun ev => negb (is_subprocess ev)))
           (get_pipeline w input_data program project user).
Proof.
  unfold get_pipeline, fhir_import_export._get, fhir_import_export._can_read, print_out.
  respects_tac ltac:(first [ emits_prim
                           | intros s; apply emits_only_emit; reflexivity ]).
Qed.

Lemma no_subprocess_starts t evs :
  forallb (fun ev => negb (is_subprocess ev)) evs = true ->
  existsb (starts t) evs = false /\ tools_started evs = [].
Proof.
  induction evs as [|ev evs IH]; simpl; [split; reflexivity|].
  intros H. apply andb_true_iff in H. destruct H as [H1 H2].
  destruct (IH H2) as [IH1 IH2].
  destruct ev; try discriminate H1; simpl; split; assumption.
Qed.

Lemma put_pipeline_load_guarded w input_data program project user :
  existsb (starts Load)
          (trace (snd (put_pipeline w input_data program project user (fresh user))))
    = true ->
  import_guards w user input_data program project.
Proof.
  unfold put_pipeline, fhir_import_export._put. rewrite then_print_trace.
  rewrite existsb_app. intros H. apply orb_true_iff in H. destruct H as [H|H].
  - apply (import_steps_load_guarded w input_data program project user (fresh user)
             (trace (snd (import_steps w input_data program project user (fresh user))))).
    + reflexivity.
    + exact H.
  - destruct (fst (import_steps w input_data program project user (fresh user)));
      discriminate H.
Qed.

(** C2.  On the import path the load script is started only when
    [_can_create] returned [True], the input data carry an object id, and
    [_download_and_unzip] returned [True]: this holds of every run of
    [fhir_import._main], of every run of [fhir_import_export._main], and
    of [_put] run in any state.  Equivalently, when [_can_create] returns
    [False] or [_download_and_unzip] returns [False], [_put] does not
    start the load script. *)
Theorem load_only_after_checks :
  forall w,
    (existsb (starts Load) (trace (snd (fhir_import._main w initial))) = true ->
     exists user input_data program project,
       session w = Ok (user, input_data, program, project) /\
       import_guards w user input_data program project) /\
    (existsb (starts Load) (trace (snd (fhir_import_export._main w initial))) = true ->
     exists user input_data program project,
       session w = Ok (user, input_data, program, project) /\
       import_guards w user input_data program project) /\
    (forall input_data program project user s evs,
        trace (snd (fhir_import_export._put w input_data program project user s))
          = trace s ++ evs ->
        (existsb (starts Load) evs = true ->
         import_guards w user input_data program project) /\
        (returns (_can_create program user) false ->
         existsb (starts Load) evs = false) /\
        (forall object_id,
            dict_get input_data "object_id" = Ok object_id ->
            returns (_download_and_unzip w object_id (study_dir project)) false ->
            existsb (starts Load) evs = false)).
Proof.
  intros w. split; [|split].
  - intros H. destruct (session w) as [e|[[[u i] p] pr]] eqn:Hs.
    + rewrite fhir_import_main_shape in H.
      match type of H with
      | context [start_then w ?rest] =>
          destruct (start_then_err w rest e Hs) as [_ Ht]
      end.
      rewrite Ht in H. discriminate H.
    + exists u, i, p, pr. split; [reflexivity|].
      rewrite fhir_import_main_shape, (start_then_ok _ _ _ _ _ _ Hs) in H.
      apply put_pipeline_load_guarded. exact H.
  - intros H.
    destruct (export_main_cases w)
      as [Ht | [(u & i & p & pr & Hs & Hr) | (u & i & p & pr & Hs & Hr)]].
    + rewrite Ht in H. discriminate H.
    + exists u, i, p, pr. split; [exact Hs|].
      rewrite Hr in H. apply put_pipeline_load_guarded. exact H.
    + rewrite Hr in H.
      destruct (get_pipeline_no_subprocess w i p pr u (fresh u)) as [evs [Ht Hp]].
      rewrite Ht in H. cbn [fresh trace app] in H.
      rewrite (proj1 (no_subprocess_starts Load evs Hp)) in H. discriminate H.
  - intros input_data program project user s evs Ht.
    unfold fhir_import_export._put in Ht.
    assert (G : existsb (starts Load) evs = true ->
                import_guards w user input_data program project)
      by apply (import_steps_load_guarded _ _ _ _ _ _ _ Ht).
    split; [exact G|]. split.
    + intros Hf. destruct (existsb (starts Load) evs); [|reflexivity].
      destruct (G eq_refl) as [Hc _].
      specialize (Hc initial). specialize (Hf initial). congruence.
    + intros object_id Ho Hf. destruct (existsb (starts Load) evs); [|reflexivity].
      destruct (G eq_refl) as [_ [oid [Ho' [_ Hd]]]].
      rewrite Ho in Ho'. inversion Ho'; subst oid.
      specialize (Hd initial). specialize (Hf initial). congruence.
Qed.

(** A complete import starts the load script, and its guards hold. *)
Lemma load_only_after_checks_witness :
  exists user input_data program project,
    session (demo_world demo_user put_input 0 0 0)
      = Ok (user, input_data, program, project) /\
    import_guards (demo_world demo_user put_input 0 0 0)
                  user input_data program project.
Proof.
  apply (proj1 (load_only_after_checks (demo_world demo_user put_input 0 0 0))).
  reflexivity.
Defined.

(** ** The order of the child processes *)

Lemma tools_started_app evs1 evs2 :
  tools_started (evs1 ++ evs2) = tools_started evs1 ++ tools_started evs2.
Proof. apply flat_map_app. Qed.

Lemma tools_started_download w object_id env :
  tools_started [ESubprocess (download_cmd w object_id) env] = [Download].
Proof. unfold tools_started. rewrite download_cmd_shape. reflexivity. Qed.

Lemma tools_started_unzip w object_id file_path env :
  tools_started [ESubprocess (unzip_cmd w object_id file_path) env] = [Unzip].
Proof.
  unfold tools_started.
  destruct (unzip_cmd_shape w object_id file_path) as [rest H].
  rewrite H. reflexivity.
Qed.

Lemma tools_started_in t evs :
  In t (tools_started evs) -> existsb (starts t) evs = true.
Proof.
  unfold tools_started.
  induction evs as [|ev evs IH]; cbn [flat_map existsb]; [contradiction|].
  intros H. apply in_app_or in H. destruct H as [H|H].
  - apply filter_In in H. destruct H as [_ H]. rewrite H. reflexivity.
  - rewrite (IH H). apply orb_true_r.
Qed.

(** The tools started by the import pipeline, in order. *)
Lemma import_steps_tools w input_data program project user :
  exists n,
    tools_started
      (trace (snd (import_steps w input_data program project user (fresh user))))
    = firstn n [Download; Unzip; Load].
Proof.
  destruct (import_steps_trace w input_data program project user (fresh user))
    as [[H _] | [object_id [_ [_ [_ H]]]]].
  - exists 0. rewrite H. reflexivity.
  - cbv zeta in H.
    destruct H as [[_ [H _]] | [[_ [_ [H _]]] | [_ [_ [H _]]]]]; rewrite H;
      cbn [fresh trace app].
    + exists 1. apply tools_started_download.
    + exists 2.
      change [ESubprocess (download_cmd w object_id) [];
              ESubprocess (unzip_cmd w object_id (study_dir project)) []]
        with ([ESubprocess (download_cmd w object_id) []]
              ++ [ESubprocess (unzip_cmd w object_id (study_dir project)) []]).
      rewrite tools_started_app, tools_started_download, tools_started_unzip.
      reflexivity.
    + exists 3.
      change [ESubprocess (download_cmd w object_id) [];
              ESubprocess (unzip_cmd w object_id (study_dir project)) [];
              EGlob (study_dir project);
              ESubprocess load_cmd (load_env project (program ++ "-" ++ project))]
        with ([ESubprocess (download_cmd w object_id) []]
              ++ [ESubprocess (unzip_cmd w object_id (study_dir project)) []]
              ++ [EGlob (study_dir project);
                  ESubprocess load_cmd (load_env project (program ++ "-" ++ project))]).
      rewrite !tools_started_app, tools_started_download, tools_started_unzip.
      reflexivity.
Qed.

Lemma put_pipeline_tools w input_data program project user :
  exists n,
    tools_started
      (trace (snd (put_pipeline w input_data program project user (fresh user))))
    = firstn n [Download; Unzip; Load].
Proof.
  unfold put_pipeline, fhir_import_export._put.
  rewrite then_print_trace, tools_started_app.
  destruct (import_steps_tools w input_data program project user) as [n H].
  exists n. rewrite H.
  destruct (fst (import_steps w input_data program project user (fresh user)));
    apply app_nil_r.
Qed.

Lemma fhir_import_main_tools w :
  exists n,
    tools_started (trace (snd (fhir_import._main w initial)))
    = firstn n [Download; Unzip; Load].
Proof.
  destruct (session w) as [e|[[[u i] p] pr]] eqn:Hs.
  - exists 0. rewrite fhir_import_main_shape.
    match goal with
    | |- context [start_then w ?rest] =>
        destruct (start_then_err w rest e Hs) as [_ Ht]
    end.
    rewrite Ht. reflexivity.
  - rewrite fhir_import_main_shape, (start_then_ok _ _ _ _ _ _ Hs).
    apply put_pipeline_tools.
Qed.

Lemma fhir_import_export_main_tools w :
  exists n,
    tools_started (trace (snd (fhir_import_export._main w initial)))
    = firstn n [Download; Unzip; Load].
Proof.
  destruct (export_main_cases w)
    as [Ht | [(u & i & p & pr & Hs & Hr) | (u & i & p & pr & Hs & Hr)]].
  - exists 0. rewrite Ht. reflexivity.
  - rewrite Hr. apply put_pipeline_tools.
  - exists 0. rewrite Hr.
    destruct (get_pipeline_no_subprocess w i p pr u (fresh u)) as [evs [Ht Hp]].
    rewrite Ht. cbn [fresh trace app].
    apply (proj2 (no_subprocess_starts Load evs Hp)).
Qed.

Lemma starts_download_cmd w object_id env :
  starts Download (ESubprocess (download_cmd w object_id) env) = true.
Proof. rewrite download_cmd_shape. reflexivity. Qed.

Lemma starts_unzip_cmd w object_id file_path env :
  starts Unzip (ESubprocess (unzip_cmd w object_id file_path) env) = true.
Proof.
  destruct (unzip_cmd_shape w object_id file_path) as [rest H].
  rewrite H. reflexivity.
Qed.

Lemma filter_no_subprocess evs :
  forallb (fun ev => negb (is_subprocess ev)) evs = true ->
  filter is_subprocess evs = [].
Proof.
  induction evs as [|ev evs IH]; [reflexivity|].
  simpl. intros H. apply andb_true_iff in H. destruct H as [H1 H2].
  destruct (is_subprocess ev); [discriminate H1 | apply IH, H2].
Qed.

(** The children of the import pipeline are started one after the
    other, each after the one before ended with code 0. *)
Lemma put_pipeline_sequential w input_data program project user :
  sequential w
    (filter is_subprocess
       (trace (snd (put_pipeline w input_data program project user (fresh user))))).
Proof.
  unfold put_pipeline, fhir_import_export._put.
  rewrite then_print_trace, filter_app.
  assert (P : filter is_subprocess
                match fst (import_steps w input_data program project user (fresh user))
                with
                | inl _ => []
                | inr _ =>
                    [result_line w
                       (out (snd (import_steps w input_data program project user
                                    (fresh user))))]
                end = [])
    by (destruct (fst (import_steps w input_data program project user (fresh user)));
        reflexivity).
  rewrite P, app_nil_r. clear P.
  destruct (import_steps_trace w input_data program project user (fresh user))
    as [[H _] | [object_id [_ [_ [_ H]]]]].
  - rewrite H. left. reflexivity.
  - cbv zeta in H.
    destruct H as [[_ [H _]] | [[H1 [_ [H _]]] | [H1 [H2 [H _]]]]]; rewrite H;
      cbn [fresh trace app filter is_subprocess].
    + right. left. eexists. split; [reflexivity|]. apply starts_download_cmd.
    + right. right. left. eexists. eexists. split; [reflexivity|].
      split; [apply starts_download_cmd|]. split; [apply starts_unzip_cmd|].
      exact H1.
    + right. right. right. eexists. eexists. eexists. split; [reflexivity|].
      split; [apply starts_download_cmd|]. split; [apply starts_unzip_cmd|].
      split; [reflexivity|]. split; [exact H1 | exact H2].
Qed.

Lemma fhir_import_main_sequential w :
  sequential w (filter is_subprocess (trace (snd (fhir_import._main w initial)))).
Proof.
  destruct (session w) as [e|[[[u i] p] pr]] eqn:Hs.
  - rewrite fhir_import_main_shape.
    match goal with
    | |- context [start_then w ?rest] =>
        destruct (start_then_err w rest e Hs) as [_ Ht]
    end.
    rewrite Ht. left. reflexivity.
  - rewrite fhir_import_main_shape, (start_then_ok _ _ _ _ _ _ Hs).
    apply put_pipeline_sequential.
Qed.

Lemma fhir_import_export_main_sequential w :
  sequential w
    (filter is_subprocess (trace (snd (fhir_import_export._main w initial)))).
Proof.
  destruct (export_main_cases w)
    as [Ht | [(u & i & p & pr & Hs & Hr) | (u & i & p & pr & Hs & Hr)]].
  - rewrite Ht. left. reflexivity.
  - rewrite Hr. apply put_pipeline_sequential.
  - rewrite Hr.
    destruct (get_pipeline_no_subprocess w i p pr u (fresh u)) as [evs [Ht Hp]].
    rewrite Ht. cbn [fresh trace app].
    rewrite (filter_no_subprocess evs Hp). left. reflexivity.
Qed.

(** C4, amended.  The child processes of a run are started one after
    the other in a fixed order, each only after the one before has ended
    with code 0.  In every run of either script the tools started are, in
    this order, none, or the download tool, or the download tool and the
    unzip tool, or these two and the load script; the unzip tool is
    started only after the download tool has ended with exit code 0, and
    the load script only after the unzip tool has ended with exit code
    0. *)
Theorem subprocesses_run_in_order :
  forall w,
    (exists n,
        tools_started (trace (snd (fhir_import._main w initial)))
        = firstn n [Download; Unzip; Load]) /\
    (exists n,
        tools_started (trace (snd (fhir_import_export._main w initial)))
        = firstn n [Download; Unzip; Load]) /\
    sequential w (filter is_subprocess (trace (snd (fhir_import._main w initial)))) /\
    sequential w
      (filter is_subprocess (trace (snd (fhir_import_export._main w initial)))).
Proof.
  intros w. split; [|split; [|split]].
  - apply fhir_import_main_tools.
  - apply fhir_import_export_main_tools.
  - apply fhir_import_main_sequential.
  - apply fhir_import_export_main_sequential.
Qed.

Lemma starts_unzip_only ev :
  starts Unzip ev = true -> tools_started [ev] = [Unzip].
Proof.
  destruct ev as [[|prog rest] env | | | |]; try discriminate.
  cbn [starts program_of]. intros H. apply String.eqb_eq in H. subst prog.
  reflexivity.
Qed.

(** C4 as stated fails: the unzip tool is never started unless the
    download tool was started before it, so the claim has no run for the
    pair (download, unzip). *)
Lemma unzip_always_follows_download : ~ subprocesses_unordered.
Proof.
  intros claim.
  destruct (claim Download Unzip) as (w & pre & ev & post & Ht & Hb & Ha);
    [discriminate|].
  destruct (fhir_import_main_tools w) as [n Hn].
  rewrite Ht in Hn.
  change (pre ++ ev :: post) with (pre ++ [ev] ++ post) in Hn.
  rewrite !tools_started_app, (starts_unzip_only ev Hb) in Hn.
  assert (Hpre : ~ In Download (tools_started pre)).
  { intros Hin. apply tools_started_in in Hin. congruence. }
  destruct (tools_started pre) as [|t ts].
  - destruct n as [|n]; discriminate Hn.
  - destruct n as [|n]; [discriminate Hn|].
    cbn [app firstn] in Hn. inversion Hn; subst t.
    apply Hpre. left. reflexivity.
Qed.

(** A complete import starts the three tools, in that order. *)
Example complete_import_order :
  tools_started
    (trace (snd (fhir_import._main (demo_world demo_user put_input 0 0 0) initial)))
  = [Download; Unzip; Load].
Proof. reflexivity. Qed.

(** ** Failing child processes *)

Lemma can_create_logs program user s :
  exists added,
    o_logs (out (snd (_can_create program user s))) = o_logs (out s) ++ added.
Proof. apply (can_create_log_extends program user s). Qed.

(** C3.  On the import path, once the permission is granted and an
    object id is given, a child process that ends with a nonzero exit
    code has exactly this effect: log lines are appended, the last of
    them the error line of that step, the remaining steps are skipped,
    and nothing is raised.  After a failed download the unzip tool is not
    started; after a failed download or unzip no files are listed and
    the load script is not started; a failed load is the last step. *)
Theorem nonzero_exit_stops_pipeline :
  forall w input_data program project user object_id s,
    returns (_can_create program user) true ->
    dict_get input_data "object_id" = Ok object_id ->
    truthy object_id = true ->
    let run := fhir_import_export._put w input_data program project user s in
    let dl_cmd := download_cmd w object_id in
    let uz_cmd := unzip_cmd w object_id (study_dir project) in
    let ld_env := load_env project (program ++ "-" ++ project) in
    let dl := ESubprocess dl_cmd [] in
    let uz := ESubprocess uz_cmd [] in
    let ld := ESubprocess load_cmd ld_env in
    (forall c,
        exit_code (spawn w dl_cmd []) = Some c -> c <> 0%Z ->
        fst run = Ok tt /\
        trace (snd run) = trace s ++ [dl] /\
        o_files (out (snd run)) = o_files (out s) /\
        exists lines,
          o_logs (out (snd run)) =
          o_logs (out s) ++ lines ++
          [JStr ("ERROR DOWNLOADING " ++ py_str w object_id
                 ++ " /tmp/" ++ py_str w object_id)]) /\
    (forall c,
        exit_code (spawn w dl_cmd []) = Some 0%Z ->
        exit_code (spawn w uz_cmd []) = Some c -> c <> 0%Z ->
        fst run = Ok tt /\
        trace (snd run) = trace s ++ [dl; uz] /\
        o_files (out (snd run)) = o_files (out s) /\
        exists lines,
          o_logs (out (snd run)) =
          o_logs (out s) ++ lines ++
          [JStr ("ERROR UNZIPPING /tmp/" ++ py_str w object_id)]) /\
    (forall c sout serr,
        exit_code (spawn w dl_cmd []) = Some 0%Z ->
        exit_code (spawn w uz_cmd []) = Some 0%Z ->
        spawn w load_cmd ld_env = Ok (c, sout, serr) -> c <> 0%Z ->
        fst run = Ok tt /\
        trace (snd run) = trace s ++ [dl; uz; EGlob (study_dir project); ld] /\
        exists lines,
          o_logs (out (snd run)) =
          o_logs (out s) ++ lines ++
          [JStr ("ERROR LOADING " ++ project); JStr serr; JStr sout]).
Proof.
  intros w input_data program project user object_id s Hc Ho Hy.
  cbv zeta. unfold fhir_import_export._put.
  rewrite (import_steps_granted _ _ _ _ _ _ (Hc s)).
  pose proof (can_create_trace program user s) as Ht.
  pose proof (can_create_files program user s) as Hf.
  destruct (can_create_logs program user s) as [l0 Hl].
  set (s1 := snd (_can_create program user s)) in *.
  unfold _get_object_id. rewrite bind_run. cbn [lift fst snd].
  rewrite Ho, Hy, bind_run, download_and_unzip_run. cbv zeta.
  destruct (spawn w (download_cmd w object_id) []) as [e|[[c1 o1] e1]].
  { repeat split; intros; discriminate. }
  cbn [exit_code].
  destruct (Z.eqb_spec c1 0) as [E1|E1].
  2:{ cbn [exit_code]. split; [|split]; intros; try congruence.
      cbn [fst snd ret advance trace out o_files o_logs].
      rewrite Ht, Hf, Hl, !app_nil_r. repeat split.
      exists (l0 ++ [JStr "CAN CREATE: True"]).
      rewrite <- !app_assoc. reflexivity. }
  subst c1.
  destruct (spawn w (unzip_cmd w object_id (study_dir project)) [])
    as [e|[[c2 o2] e2]].
  { repeat split; intros; cbn [exit_code] in *; congruence. }
  destruct (Z.eqb_spec c2 0) as [E2|E2].
  2:{ cbn [exit_code]. split; [|split]; intros; try congruence.
      cbn [fst snd ret advance trace out o_files o_logs].
      rewrite Ht, Hf, Hl, !app_nil_r. repeat split.
      exists (l0 ++ [JStr "CAN CREATE: True";
                     JStr ("DOWNLOADED " ++ py_str w object_id ++ " "
                           ++ study_dir project)]).
      rewrite <- !app_assoc. reflexivity. }
  subst c2.
  cbn [exit_code]. split; [intros; congruence|]. split; [intros; congruence|].
  intros c sout serr _ _ Hld Hne.
  cbn [fst snd]. rewrite list_and_load_run. cbv zeta. rewrite Hld.
  cbn [fst snd advance trace out o_files o_logs o_user o_object_id].
  rewrite Ht, Hl, !app_nil_r.
  destruct (Z.eqb_spec c 0) as [E|E]; [contradiction|].
  repeat split.
  - rewrite <- !app_assoc. reflexivity.
  - exists (l0 ++ [JStr "CAN CREATE: True";
                   JStr ("DOWNLOADED " ++ py_str w object_id ++ " "
                         ++ study_dir project);
                   JStr ("UNZIPPED " ++ study_dir project);
                   JStr "LOADING: ['./load_all']"]).
    rewrite <- !app_assoc. reflexivity.
Qed.

(** A download that ends with code 1: the error is logged, and neither
    the unzip tool nor the load script is started. *)
Lemma nonzero_exit_stops_pipeline_witness :
  let w := demo_world demo_user put_input 1 0 0 in
  let run := fhir_import_export._put w put_input "aced" "study" demo_user
               (fresh demo_user) in
  fst run = Ok tt /\
  trace (snd run) = [ESubprocess (download_cmd w (JStr "guid-0")) []] /\
  o_files (out (snd run)) = [] /\
  exists lines,
    o_logs (out (snd run)) =
    lines ++ [JStr "ERROR DOWNLOADING guid-0 /tmp/guid-0"].
Proof.
  cbv zeta.
  apply (proj1 (nonzero_exit_stops_pipeline
                  (demo_world demo_user put_input 1 0 0)
                  put_input "aced" "study" demo_user (JStr "guid-0")
                  (fresh demo_user)
                  (returns_of_indep _ _ initial
                     (can_create_indep "aced" demo_user) eq_refl)
                  eq_refl eq_refl)
               1%Z eq_refl).
  discriminate.
Defined.

(** * Further properties of the code *)

(** ** The read permission *)

(** What [_can_read] returns: the first three checks one after the
    other, the fourth under the third. *)
Lemma can_read_result program project user s :
  fst (fhir_import_export._can_read program project user s) =
  and_then (resource_check user ("/programs/" ++ program)) (fun c1 =>
  and_then (resource_check user (project_path program project)) (fun c2 =>
  and_then (authz_key_check user (project_path program project)) (fun c3 =>
  if c3
  then and_then (authz_grant_check user (project_path program project)
                                   fhir_import_export.read_storage_any_service)
                (fun c4 => Ok (c1 && c2 && c4))
  else Ok false))).
Proof.
  unfold fhir_import_export._can_read, resource_check, authz_key_check,
    authz_grant_check, project_path.
  generalize ("/programs/" ++ program ++ " not found in user resources")%string.
  generalize ("/programs/" ++ program ++ "/projects/" ++ project)%string.
  generalize ("/programs/" ++ program)%string.
  intros P K msg.
  destruct (getitem user "resources") as [e|res]; [reflexivity|].
  unfold bind at 1. cbn [lift].
  destruct (str_in P res) as [e|c1]; [reflexivity|].
  destruct (str_in K res) as [e|c2] eqn:E2;
    [unfold bind, lift, and_then; cbn; rewrite E2; destruct c1; reflexivity|].
  destruct (getitem user "authz") as [e|authz];
    [unfold bind, lift, and_then; cbn; rewrite E2; destruct c1, c2; reflexivity|].
  destruct (str_in K authz) as [e|c3] eqn:E3;
    [unfold bind, lift, and_then; cbn; rewrite E2, E3;
     destruct c1, c2; reflexivity|].
  destruct c3;
    [|unfold bind, lift, and_then; cbn; rewrite E2, E3;
      destruct c1, c2; reflexivity].
  destruct (getitem authz K) as [e|granted] eqn:E4;
    [unfold bind, lift, and_then; cbn; rewrite E2, E3, E4;
     destruct c1, c2; reflexivity|].
  destruct (permission_in fhir_import_export.read_storage_any_service granted)
    as [e|c4] eqn:E5;
    unfold bind, lift, and_then; cbn; rewrite E2, E3, E4, E5;
    destruct c1, c2; try destruct c4; reflexivity.
Qed.

(** X1.  [_can_read] returns [True] if and only if its four membership
    checks pass: ['/programs/{program}'] and
    ['/programs/{program}/projects/{project}'] are in [user['resources']],
    the project path is a key of [user['authz']], and
    [{'method': 'read-storage', 'service': '*'}] is in
    [user['authz'][project path]].  When the project path is no key of
    [user['authz']] and the two resource checks gave booleans, it returns
    [False]: the missing key is not looked up. *)
Theorem can_read_iff_checks :
  forall program project user s,
    (fst (fhir_import_export._can_read program project user s) = Ok true <->
     can_read_checks program project user) /\
    (forall c1 c2,
        resource_check user ("/programs/" ++ program) = Ok c1 ->
        resource_check user (project_path program project) = Ok c2 ->
        authz_key_check user (project_path program project) = Ok false ->
        fst (fhir_import_export._can_read program project user s) = Ok false).
Proof.
  intros program project user s. rewrite can_read_result.
  unfold can_read_checks, and_then.
  generalize (resource_check user ("/programs/" ++ program))
             (resource_check user (project_path program project))
             (authz_key_check user (project_path program project))
             (authz_grant_check user (project_path program project)
                                fhir_import_export.read_storage_any_service).
  intros r1 r2 r3 r4. split.
  - destruct r1 as [e1|[|]]; (split; [intros H | intros (H1&H2&H3&H4)]);
      try congruence;
      destruct r2 as [e2|[|]]; try congruence;
      destruct r3 as [e3|[|]]; try congruence;
      destruct r4 as [e4|[|]]; try congruence;
      cbn in *; try congruence; repeat split; reflexivity.
  - intros c1 c2 H1 H2 H3. rewrite H1, H2, H3. reflexivity.
Qed.

(** The demo user may read [aced-study]; a user without rights may not. *)
Lemma can_read_iff_checks_witness :
  fst (fhir_import_export._can_read "aced" "study" demo_user initial) = Ok true /\
  fst (fhir_import_export._can_read "aced" "study" no_rights initial) = Ok false.
Proof.
  split.
  - apply (proj1 (can_read_iff_checks "aced" "study" demo_user initial)).
    repeat split; reflexivity.
  - apply (proj2 (can_read_iff_checks "aced" "study" no_rights initial)
             false false eq_refl eq_refl eq_refl).
Defined.

(** ** The export *)

Lemma can_read_silent program project user :
  respects silent (fhir_import_export._can_read program project user).
Proof. unfold fhir_import_export._can_read, silent. respects_tac emits_prim. Qed.

Lemma can_read_same_files program project user :
  respects same_files (fhir_import_export._can_read program project user).
Proof. unfold fhir_import_export._can_read. respects_tac same_prim. Qed.

Lemma can_read_trace program project user s :
  trace (snd (fhir_import_export._can_read program project user s)) = trace s.
Proof. apply silent_trace, can_read_silent. Qed.

Lemma can_read_logs program project user s :
  exists added,
    o_logs (out (snd (fhir_import_export._can_read program project user s)))
    = o_logs (out s) ++ added.
Proof. apply (can_read_log_extends program project user s). Qed.

(** X2.  Without the read permission [_get] exports nothing: it returns
    [None], the last line it logs is ['No read permissions on
    {program}-{project}'], and it reaches neither the FHIR store nor the
    bucket and leaves [output['files']] alone. *)
Theorem get_denied_exports_nothing :
  forall w input_data program project user s,
    returns (fhir_import_export._can_read program project user) false ->
    let run := fhir_import_export._get w input_data program project user s in
    fst run = Ok JNull /\
    trace (snd run) = trace s /\
    o_files (out (snd run)) = o_files (out s) /\
    exists lines,
      o_logs (out (snd run)) =
      o_logs (out s) ++ lines
      ++ [JStr ("No read permissions on " ++ program ++ "-" ++ project)].
Proof.
  intros w input_data program project user s H. cbv zeta.
  unfold fhir_import_export._get.
  rewrite (bind_ok _ _ _ _ (H s)). cbn [negb].
  rewrite bind_run, log_run. cbn [fst snd ret advance trace out o_files o_logs].
  rewrite can_read_trace, (can_read_same_files program project user s), app_nil_r.
  destruct (can_read_logs program project user s) as [l0 Hl]. rewrite Hl.
  repeat split. exists l0. rewrite <- app_assoc. reflexivity.
Qed.

Lemma get_denied_exports_nothing_witness :
  fst (fhir_import_export._get (demo_world no_rights get_input 0 0 0)
         get_input "aced" "study" no_rights (fresh no_rights)) = Ok JNull.
Proof.
  apply (get_denied_exports_nothing
           (demo_world no_rights get_input 0 0 0)
           get_input "aced" "study" no_rights (fresh no_rights)
           (returns_of_indep _ _ initial
              (can_read_indep "aced" "study" no_rights) eq_refl)).
Defined.

(** X3.  With the read permission [_get] calls the FHIR store and then
    the bucket upload, once each and in this order.  When the FHIR
    export raises, nothing is uploaded; when the upload raises, the
    exception is passed on; otherwise [_get] returns the ['object_id'] of
    the upload result, and the log ends with the lines of the export
    followed by the ['msg'] of the upload result. *)
Theorem get_granted_exports_then_uploads :
  forall w input_data program project user s,
    returns (fhir_import_export._can_read program project user) true ->
    let run := fhir_import_export._get w input_data program project user s in
    let project_id := (program ++ "-" ++ project)%string in
    let study_path := ("studies/" ++ project)%string in
    let export := EFhirGet project_id study_path in
    let upload := ECp study_path project_id in
    (forall e,
        fhir_get w project_id study_path = Err e ->
        fst run = Err e /\ trace (snd run) = trace s ++ [export]) /\
    (forall exported e,
        fhir_get w project_id study_path = Ok exported ->
        cp w study_path project_id = Err e ->
        fst run = Err e /\ trace (snd run) = trace s ++ [export; upload]) /\
    (forall exported cp_result msg object_id,
        fhir_get w project_id study_path = Ok exported ->
        cp w study_path project_id = Ok cp_result ->
        getitem cp_result "msg" = Ok msg ->
        getitem cp_result "object_id" = Ok object_id ->
        fst run = Ok object_id /\
        trace (snd run) = trace s ++ [export; upload] /\
        o_files (out (snd run)) = o_files (out s) /\
        exists lines,
          o_logs (out (snd run)) = o_logs (out s) ++ lines ++ exported ++ [msg]).
Proof.
  intros w input_data program project user s H. cbv zeta.
  unfold fhir_import_export._get.
  rewrite (bind_ok _ _ _ _ (H s)). cbn [negb].
  pose proof (can_read_trace program project user s) as Ht.
  pose proof (can_read_same_files program project user s) as Hf.
  destruct (can_read_logs program project user s) as [l0 Hl].
  unfold same_files in Hf.
  destruct (snd (fhir_import_export._can_read program project user s))
    as [[u1 f1 l1 o1] t1].
  cbn [trace out o_files o_logs] in Ht, Hf, Hl.
  subst t1 f1 l1.
  unfold bind, emit, lift, logs_extend, logs_append, ret.
  cbn [out trace o_user o_files o_logs o_object_id fst snd].
  split; [|split].
  - intros e He. rewrite He. split; reflexivity.
  - intros exported e He Hc. rewrite He, Hc.
    cbn [out trace o_user o_files o_logs o_object_id fst snd].
    split; [reflexivity|]. rewrite <- app_assoc. reflexivity.
  - intros exported cp_result msg object_id He Hc Hm Ho. rewrite He, Hc.
    cbn [out trace o_user o_files o_logs o_object_id fst snd].
    rewrite Hm, Ho.
    cbn [out trace o_user o_files o_logs o_object_id fst snd].
    split; [reflexivity|]. split; [rewrite <- app_assoc; reflexivity|].
    split; [reflexivity|].
    exists l0. rewrite <- !app_assoc. reflexivity.
Qed.

Lemma get_granted_exports_then_uploads_witness :
  fst (fhir_import_export._get (demo_world demo_user get_input 0 0 0)
         get_input "aced" "study" demo_user (fresh demo_user)) = Ok (JStr "guid-1").
Proof.
  apply (proj2 (proj2
           (get_granted_exports_then_uploads
              (demo_world demo_user get_input 0 0 0)
              get_input "aced" "study" demo_user (fresh demo_user)
              (returns_of_indep _ _ initial
                 (can_read_indep "aced" "study" demo_user) eq_refl)))
           [JStr "exported"]
           (JObj [("msg", JStr "uploaded"); ("object_id", JStr "guid-1")])
           (JStr "uploaded") (JStr "guid-1")
           eq_refl eq_refl eq_refl eq_refl).
Defined.

(** ** The import, path by path *)

(** X4.  When [_can_create] returns [False] the import does nothing
    more: [_put] returns without raising, the last line it logs is ['CAN
    CREATE: False'], no child process is started and [output['files']]
    is left alone. *)
Theorem put_denied_does_nothing :
  forall w input_data program project user s,
    returns (_can_create program user) false ->
    let run := fhir_import_export._put w input_data program project user s in
    fst run = Ok tt /\
    trace (snd run) = trace s /\
    o_files (out (snd run)) = o_files (out s) /\
    exists lines,
      o_logs (out (snd run)) = o_logs (out s) ++ lines ++ [JStr "CAN CREATE: False"].
Proof.
  intros w input_data program project user s H. cbv zeta.
  unfold fhir_import_export._put, import_steps.
  rewrite (bind_ok _ _ _ _ (H s)).
  rewrite bind_run, log_run. cbn [fst snd ret advance trace out o_files o_logs].
  rewrite can_create_trace, can_create_files, app_nil_r.
  destruct (can_create_logs program user s) as [l0 Hl]. rewrite Hl.
  repeat split. exists l0. rewrite <- app_assoc. reflexivity.
Qed.

Lemma put_denied_does_nothing_witness :
  fst (fhir_import_export._put (demo_world no_rights put_input 0 0 0)
         put_input "aced" "study" no_rights (fresh no_rights)) = Ok tt.
Proof.
  apply (put_denied_does_nothing
           (demo_world no_rights put_input 0 0 0)
           put_input "aced" "study" no_rights (fresh no_rights)
           (returns_of_indep _ _ initial (can_create_indep "aced" no_rights) eq_refl)).
Defined.

(** X5.  When the permission is granted and the input data carry no
    object id (the key is missing, or its value is [None] or empty),
    [_put] logs ['OBJECT ID NOT FOUND'] as its last line and returns
    without raising; no child process is started and [output['files']]
    is left alone. *)
Theorem put_without_object_id :
  forall w input_data program project user object_id s,
    returns (_can_create program user) true ->
    dict_get input_data "object_id" = Ok object_id ->
    truthy object_id = false ->
    let run := fhir_import_export._put w input_data program project user s in
    fst run = Ok tt /\
    trace (snd run) = trace s /\
    o_files (out (snd run)) = o_files (out s) /\
    exists lines,
      o_logs (out (snd run)) =
      o_logs (out s) ++ lines ++ [JStr "CAN CREATE: True"; JStr "OBJECT ID NOT FOUND"].
Proof.
  intros w input_data program project user object_id s H Ho Hy. cbv zeta.
  unfold fhir_import_export._put.
  rewrite (import_steps_granted _ _ _ _ _ _ (H s)).
  unfold _get_object_id. rewrite bind_run. cbn [lift fst snd].
  rewrite Ho, Hy, log_run. cbn [fst snd advance trace out o_files o_logs].
  rewrite can_create_trace, can_create_files, !app_nil_r.
  destruct (can_create_logs program user s) as [l0 Hl]. rewrite Hl.
  repeat split. exists l0. rewrite <- !app_assoc. reflexivity.
Qed.

(** Input data for a project, without an object id. *)
Lemma put_without_object_id_witness :
  fst (fhir_import_export._put (demo_world demo_user get_input 0 0 0)
         get_input "aced" "study" demo_user (fresh demo_user)) = Ok tt.
Proof.
  apply (put_without_object_id
           (demo_world demo_user get_input 0 0 0)
           get_input "aced" "study" demo_user JNull (fresh demo_user)
           (returns_of_indep _ _ initial (can_create_indep "aced" demo_user) eq_refl)
           eq_refl eq_refl).
Defined.

(** X6.  When the permission is granted, an object id is given and the
    three child processes end with code 0, [_put] returns without
    raising after exactly these steps in this order: download, unzip,
    listing of [/root/studies/{project}/], load.  The paths of the
    listing are appended to [output['files']] in the order of the
    listing, and the log ends with ['LOADED {project}'] followed by what
    the load script wrote to stderr and to stdout. *)
Theorem put_complete_import :
  forall w input_data program project user object_id s o1 e1 o2 e2 sout serr,
    returns (_can_create program user) true ->
    dict_get input_data "object_id" = Ok object_id ->
    truthy object_id = true ->
    spawn w (download_cmd w object_id) [] = Ok (0%Z, o1, e1) ->
    spawn w (unzip_cmd w object_id (study_dir project)) [] = Ok (0%Z, o2, e2) ->
    spawn w load_cmd (load_env project (program ++ "-" ++ project))
      = Ok (0%Z, sout, serr) ->
    let run := fhir_import_export._put w input_data program project user s in
    fst run = Ok tt /\
    trace (snd run) =
      trace s ++ [ESubprocess (download_cmd w object_id) [];
                  ESubprocess (unzip_cmd w object_id (study_dir project)) [];
                  EGlob (study_dir project);
                  ESubprocess load_cmd (load_env project (program ++ "-" ++ project))] /\
    o_files (out (snd run)) = o_files (out s) ++ glob w (study_dir project) /\
    exists lines,
      o_logs (out (snd run)) =
      o_logs (out s) ++ lines ++ [JStr ("LOADED " ++ project); JStr serr; JStr sout].
Proof.
  intros w input_data program project user object_id s o1 e1 o2 e2 sout serr
         H Ho Hy Hd Hu Hl. cbv zeta.
  unfold fhir_import_export._put.
  rewrite (import_steps_granted _ _ _ _ _ _ (H s)).
  unfold _get_object_id. rewrite bind_run. cbn [lift fst snd].
  rewrite Ho, Hy, bind_run, download_and_unzip_run. cbv zeta.
  rewrite Hd, Hu. cbn [Z.eqb fst snd].
  rewrite list_and_load_run. cbv zeta. rewrite Hl.
  cbn [Z.eqb fst snd advance trace out o_files o_logs o_user o_object_id].
  rewrite can_create_trace, can_create_files, !app_nil_r.
  destruct (can_create_logs program user s) as [l0 Hlog]. rewrite Hlog.
  split; [reflexivity|]. split; [rewrite <- !app_assoc; reflexivity|].
  split; [reflexivity|].
  exists (l0 ++ [JStr "CAN CREATE: True";
                 JStr ("DOWNLOADED " ++ py_str w object_id ++ " " ++ study_dir project);
                 JStr ("UNZIPPED " ++ study_dir project);
                 JStr "LOADING: ['./load_all']"]).
  rewrite <- !app_assoc. reflexivity.
Qed.

Lemma put_complete_import_witness :
  o_files (out (snd (fhir_import_export._put (demo_world demo_user put_input 0 0 0)
                       put_input "aced" "study" demo_user (fresh demo_user))))
  = ["/root/studies/study/Patient.ndjson"].
Proof.
  apply (put_complete_import
           (demo_world demo_user put_input 0 0 0)
           put_input "aced" "study" demo_user (JStr "guid-0") (fresh demo_user)
           "" "" "" "" "loaded" ""
           (returns_of_indep _ _ initial (can_create_indep "aced" demo_user) eq_refl)
           eq_refl eq_refl eq_refl eq_refl eq_refl).
Defined.

(** ** What the load script is given *)

(** [_get_program_project] returns only for a dict whose ['project_id']
    is a string. *)
Lemma get_program_project_inv input_data s parts :
  fst (_get_program_project input_data s) = Ok parts ->
  exists kvs pid,
    input_data = JObj kvs /\
    lookup "project_id" kvs = Some (JStr pid) /\
    parts = split_on dash pid.
Proof.
  unfold _get_program_project, bind, lift, assert_, py_split_dash, ret, raise.
  destruct input_data as [| b | n | h | l | kvs]; cbn [str_in getitem fst];
    try discriminate.
  - destruct (substringb "project_id" h); discriminate.
  - destruct (existsb (eq_str "project_id") l); discriminate.
  - unfold has_key. destruct (lookup "project_id" kvs) as [v|] eqn:Hv;
      [|discriminate].
    destruct v as [| b | n | pid | l | kvs']; cbn [str_in fst]; try discriminate.
    + destruct (substringb "-" pid); [|discriminate].
      cbn [fst]. intros H. inversion H. exists kvs, pid.
      split; [reflexivity|]. split; [exact Hv | reflexivity].
    + destruct (existsb (eq_str "-") l); discriminate.
    + destruct (has_key "-" kvs'); discriminate.
Qed.

Lemma session_parts w user input_data program project :
  session w = Ok (user, input_data, program, project) ->
  exists parts,
    fst (_get_program_project input_data initial) = Ok parts /\
    fst (unpack2 parts initial) = Ok (program, project).
Proof.
  unfold session. intros H.
  rewrite (bind_pure _ _ _ (get_token_indep _) (get_token_pure _)) in H.
  destruct (fst (_get_token w initial)) as [e|token]; [discriminate|].
  cbv beta iota in H.
  rewrite (bind_pure _ _ _ (user_indep _ _) (user_pure _ _)) in H.
  destruct (fst (_user w token initial)) as [e|u]; [discriminate|].
  cbv beta iota in H.
  rewrite (bind_pure _ _ _ (input_data_indep _) (input_data_pure _)) in H.
  destruct (fst (_input_data w initial)) as [e|i]; [discriminate|].
  cbv beta iota in H.
  rewrite (bind_pure _ _ _ (get_program_project_indep _) (get_program_project_pure _)) in H.
  destruct (fst (_get_program_project i initial)) as [e|parts] eqn:Hp; [discriminate|].
  cbv beta iota in H.
  rewrite (bind_pure _ _ _ (unpack2_indep _) (unpack2_pure _)) in H.
  destruct (fst (unpack2 parts initial)) as [e|[p pr]] eqn:Hu; [discriminate|].
  simpl in H. inversion H; subst. exists parts. split; assumption.
Qed.

(** A run whose start succeeds has read a project id of the form
    program-project. *)
Lemma session_project_id w user input_data program project :
  session w = Ok (user, input_data, program, project) ->
  exists kvs pid,
    input_data = JObj kvs /\
    lookup "project_id" kvs = Some (JStr pid) /\
    pid = (program ++ "-" ++ project)%string.
Proof.
  intros Hs. destruct (session_parts _ _ _ _ _ Hs) as [parts [Hp Hu]].
  destruct (get_program_project_inv _ _ _ Hp) as (kvs & pid & Hi & Hk & Hparts).
  exists kvs, pid. split; [exact Hi|]. split; [exact Hk|].
  rewrite unpack2_run in Hu.
  destruct parts as [|a [|b [|c r]]]; try discriminate Hu.
  simpl in Hu. inversion Hu; subst a b.
  symmetry. apply (split_on_two dash pid program project). symmetry. exact Hparts.
Qed.

(** X7.  In every run of [fhir_import], each start of the load script
    passes it the project id of the input data unchanged, as the
    variable [project_id], together with the part of the project id
    after the dash as [study] and the fixed schema address. *)
Theorem load_receives_the_project_id :
  forall w ev,
    In ev (trace (snd (fhir_import._main w initial))) ->
    starts Load ev = true ->
    exists kvs pid program study,
      input_of w = Ok (JObj kvs) /\
      lookup "project_id" kvs = Some (JStr pid) /\
      pid = (program ++ "-" ++ study)%string /\
      ev = ESubprocess ["./load_all"]
             [("study", study);
              ("project_id", pid);
              ("schema",
               "https://aced-public.s3.us-west-2.amazonaws.com/aced-test.json")].
Proof.
  intros w ev Hin Hload.
  destruct (session w) as [e|[[[u i] p] pr]] eqn:Hs.
  { rewrite fhir_import_main_shape in Hin.
    match type of Hin with
    | context [start_then w ?rest] =>
        destruct (start_then_err w rest e Hs) as [_ Ht]
    end.
    rewrite Ht in Hin. contradiction. }
  destruct (session_project_id _ _ _ _ _ Hs) as (kvs & pid & Hi & Hk & Hpid).
  exists kvs, pid, p, pr.
  split; [rewrite (session_input _ _ _ _ _ Hs), Hi; reflexivity|].
  split; [exact Hk|]. split; [exact Hpid|].
  rewrite fhir_import_main_shape, (start_then_ok _ _ _ _ _ _ Hs) in Hin.
  rewrite then_print_trace in Hin. apply in_app_or in Hin.
  destruct Hin as [Hin|Hin].
  2:{ destruct (fst (import_steps w i p pr u (fresh u))); [contradiction|].
      destruct Hin as [Hin|[]]. subst ev. discriminate Hload. }
  destruct (import_steps_trace w i p pr u (fresh u))
    as [[H _] | [object_id [_ [_ [_ H]]]]].
  { rewrite H in Hin. contradiction. }
  cbv zeta in H.
  destruct H as [[_ [H _]] | [[_ [_ [H _]]] | [_ [_ [H _]]]]];
    rewrite H in Hin; cbn [fresh trace app] in Hin.
  - destruct Hin as [Hin|[]]. subst ev.
    rewrite starts_load_download in Hload. discriminate Hload.
  - destruct Hin as [Hin|[Hin|[]]]; subst ev.
    + rewrite starts_load_download in Hload. discriminate Hload.
    + rewrite starts_load_unzip in Hload. discriminate Hload.
  - destruct Hin as [Hin|[Hin|[Hin|[Hin|[]]]]]; subst ev.
    + rewrite starts_load_download in Hload. discriminate Hload.
    + rewrite starts_load_unzip in Hload. discriminate Hload.
    + discriminate Hload.
    + rewrite Hpid. reflexivity.
Qed.

Lemma load_receives_the_project_id_witness :
  exists kvs pid program study,
    input_of (demo_world demo_user put_input 0 0 0) = Ok (JObj kvs) /\
    lookup "project_id" kvs = Some (JStr pid) /\
    pid = (program ++ "-" ++ study)%string /\
    ESubprocess ["./load_all"]
      [("study", "study"); ("project_id", "aced-study");
       ("schema", "https://aced-public.s3.us-west-2.amazonaws.com/aced-test.json")]
    = ESubprocess ["./load_all"]
        [("study", study);
         ("project_id", pid);
         ("schema", "https://aced-public.s3.us-west-2.amazonaws.com/aced-test.json")].
Proof.
  apply (load_receives_the_project_id (demo_world demo_user put_input 0 0 0)).
  - vm_compute. right. right. right. left. reflexivity.
  - reflexivity.
Defined.

(** ** The two scripts side by side *)

(** A start that raises does so whatever was to follow. *)
Lemma start_then_err_any w rest1 rest2 e :
  session w = Err e ->
  start_then w rest1 initial = start_then w rest2 initial.
Proof.
  unfold session, start_then. intros H.
  repeat start_step.
  rewrite (bind_pure _ _ _ (get_token_indep _) (get_token_pure _)) in H.
  destruct (fst (_get_token w initial)) as [e0|token]; [reflexivity|].
  cbv beta iota in H |- *.
  repeat start_step.
  rewrite (bind_pure _ _ _ (user_indep _ _) (user_pure _ _)) in H.
  destruct (fst (_user w token initial)) as [e0|u]; [reflexivity|].
  cbv beta iota in H |- *.
  rewrite (bind_pure _ _ _ (input_data_indep _) (input_data_pure _)) in H.
  rewrite !(@bind_ok _ _ (new_output u) _ initial tt eq_refl).
  change (snd (new_output u initial)) with (fresh u).
  repeat start_step.
  destruct (fst (_input_data w initial)) as [e0|i]; [reflexivity|].
  cbv beta iota in H |- *.
  rewrite (bind_pure _ _ _ (get_program_project_indep _) (get_program_project_pure _)) in H.
  repeat start_step.
  destruct (fst (_get_program_project i initial)) as [e0|parts]; [reflexivity|].
  cbv beta iota in H |- *.
  rewrite (bind_pure _ _ _ (unpack2_indep _) (unpack2_pure _)) in H.
  repeat start_step.
  destruct (fst (unpack2 parts initial)) as [e0|[p pr]]; [reflexivity|].
  discriminate H.
Qed.

(** X8.  With a method that lowercases to ['put'], a run of
    [fhir_import_export] is the same as the run of [fhir_import] in the
    same world: it returns or raises the same, leaves the same output
    record and has the same events, the printed line included. *)
Theorem put_method_runs_as_fhir_import :
  forall w input_data m,
    input_of w = Ok input_data ->
    dict_get input_data "method" = Ok (JStr m) ->
    lower m = "put" ->
    fhir_import_export._main w initial = fhir_import._main w initial.
Proof.
  intros w input_data m Hi Hd Hl.
  destruct (session w) as [e|[[[u i] p] pr]] eqn:Hs.
  - rewrite fhir_import_export_main_shape, fhir_import_main_shape.
    apply (start_then_err_any w _ _ e Hs).
  - pose proof (session_input _ _ _ _ _ Hs) as Hi'.
    rewrite Hi in Hi'. inversion Hi'; subst i.
    rewrite (export_put_run _ _ _ _ _ _ Hs Hd Hl).
    rewrite fhir_import_main_shape, (start_then_ok _ _ _ _ _ _ Hs).
    reflexivity.
Qed.

Lemma put_method_runs_as_fhir_import_witness :
  fhir_import_export._main (demo_world demo_user put_input 0 0 0) initial
  = fhir_import._main (demo_world demo_user put_input 0 0 0) initial.
Proof.
  apply (put_method_runs_as_fhir_import
           (demo_world demo_user put_input 0 0 0) put_input "PUT"
           eq_refl eq_refl eq_refl).
Defined.

(** ** User documents of another shape *)

(** X9.  [_can_create] on a user document that lacks a key: without
    ['resources'] it raises [KeyError('resources')] at once and logs
    nothing; with a list under ['resources'] and without ['authz'] it
    first logs the lines of the resource checks and then raises
    [KeyError('authz')]. *)
Theorem can_create_missing_key :
  forall program kvs s,
    (lookup "resources" kvs = None ->
     _can_create program (JObj kvs) s = (Err (KeyError "resources"), s)) /\
    (forall rs,
        lookup "resources" kvs = Some (JArr rs) ->
        lookup "authz" kvs = None ->
        _can_create program (JObj kvs) s =
        (Err (KeyError "authz"),
         advance s
           (resource_lines program
              (existsb (eq_str ("/programs/" ++ program)) rs)
              (existsb (eq_str "/services/sheepdog/submission/program") rs)
              (existsb (eq_str "/services/sheepdog/submission/project") rs)
              (existsb (eq_str (projects_of program)) rs))
           [])).
Proof.
  intros program kvs s. split.
  - intros H. unfold _can_create, bind, lift. cbn [getitem]. rewrite H. reflexivity.
  - intros rs Hr Ha. destruct s as [[u f l o] t].
    unfold _can_create, resource_lines, program_line, resource_line, projects_of,
      advance.
    unfold bind, lift, log, logs_append, ret.
    cbn [for_acc getitem str_in out trace o_user o_files o_logs o_object_id].
    rewrite Hr, Ha. cbn [str_in].
    destruct (existsb (eq_str ("/programs/" ++ program)) rs),
             (existsb (eq_str "/services/sheepdog/submission/program") rs),
             (existsb (eq_str "/services/sheepdog/submission/project") rs),
             (existsb (eq_str ("/programs/" ++ program ++ "/projects")) rs);
      cbn; rewrite ?app_nil_r, <- ?app_assoc; reflexivity.
Qed.

Lemma can_create_missing_key_witness :
  _can_create "aced" (JObj []) initial = (Err (KeyError "resources"), initial) /\
  fst (_can_create "aced" (JObj [("resources", JArr [])]) initial)
  = Err (KeyError "authz").
Proof.
  split.
  - apply (proj1 (can_create_missing_key "aced" [] initial)). reflexivity.
  - rewrite (proj2 (can_create_missing_key "aced" [("resources", JArr [])] initial)
               [] eq_refl eq_refl).
    reflexivity.
Defined.

(** X10.  [_can_create] never raises on a user document of the shape the
    authorization service gives: a dict with a list under ['resources']
    and a dict under ['authz'] whose entry for
    ['/programs/{program}/projects'], when there is one, is a list. *)
Theorem can_create_returns_on_well_formed_user :
  forall program kvs rs az,
    lookup "resources" kvs = Some (JArr rs) ->
    lookup "authz" kvs = Some (JObj az) ->
    (forall granted,
        lookup (projects_of program) az = Some granted ->
        exists l, granted = JArr l) ->
    exists b, returns (_can_create program (JObj kvs)) b.
Proof.
  intros program kvs rs az Hr Ha Hg.
  assert (H : exists b, forall s, fst (_can_create program (JObj kvs) s) = Ok b).
  { assert (R : forall r, resource_check (JObj kvs) r = Ok (existsb (eq_str r) rs)).
    { intros r. unfold resource_check. cbn [getitem]. rewrite Hr. reflexivity. }
    assert (K : authz_key_check (JObj kvs) (projects_of program)
                = Ok (has_key (projects_of program) az)).
    { unfold authz_key_check. cbn [getitem]. rewrite Ha. reflexivity. }
    destruct (has_key (projects_of program) az) eqn:Hk.
    - unfold has_key in Hk.
      destruct (lookup (projects_of program) az) as [granted|] eqn:Hl;
        [|discriminate].
      destruct (Hg granted eq_refl) as [l ->].
      eexists. intros s. rewrite can_create_result, !R, K.
      unfold and_then, authz_grant_check. cbn [getitem]. rewrite Ha.
      cbn [getitem]. rewrite Hl. reflexivity.
    - exists false. intros s. rewrite can_create_result, !R, K. reflexivity. }
  destruct H as [b H]. exists b. exact H.
Qed.

Lemma can_create_returns_on_well_formed_user_witness :
  exists b, returns (_can_create "aced" resources_only) b.
Proof.
  apply (can_create_returns_on_well_formed_user
           "aced"
           [("resources",
             JArr [JStr "/programs/aced";
                   JStr "/services/sheepdog/submission/program";
                   JStr "/services/sheepdog/submission/project";
                   JStr "/programs/aced/projects"]);
            ("authz", JObj [])]
           [JStr "/programs/aced";
            JStr "/services/sheepdog/submission/program";
            JStr "/services/sheepdog/submission/project";
            JStr "/programs/aced/projects"]
           [] eq_refl eq_refl).
  intros granted H. discriminate H.
Defined.

(** ** Runs that report *)

(** The import pipeline returns whenever the permission check returns
    and every child process can be started. *)
Lemma import_steps_returns w kvs program project user b s :
  returns (_can_create program user) b ->
  (forall cmd env, exists r, spawn w cmd env = Ok r) ->
  fst (import_steps w (JObj kvs) program project user s) = Ok tt.
Proof.
  intros Hc Hs. destruct b.
  2:{ unfold import_steps. rewrite (bind_ok _ _ _ _ (Hc s)).
      rewrite bind_run, log_run. reflexivity. }
  rewrite (import_steps_granted _ _ _ _ _ _ (Hc s)).
  unfold _get_object_id. rewrite bind_run. cbn [lift fst snd].
  assert (Hd : exists v, dict_get (JObj kvs) "object_id" = Ok v)
    by (cbn [dict_get]; destruct (lookup "object_id" kvs); eexists; reflexivity).
  destruct Hd as [v Hd]. rewrite Hd.
  destruct (truthy v); [|rewrite log_run; reflexivity].
  rewrite bind_run, download_and_unzip_run. cbv zeta.
  destruct (Hs (download_cmd w v) []) as [[[c1 o1] e1] H1]. rewrite H1.
  destruct (Z.eqb c1 0); [|reflexivity].
  destruct (Hs (unzip_cmd w v (study_dir project)) []) as [[[c2 o2] e2] H2].
  rewrite H2.
  destruct (Z.eqb c2 0); [|reflexivity].
  cbn [fst snd]. rewrite list_and_load_run. cbv zeta.
  destruct (Hs load_cmd (load_env project (program ++ "-" ++ project)))
    as [[[c3 o3] e3] H3].
  rewrite H3. reflexivity.
Qed.

(** X11.  A run of [fhir_import] whose start succeeded reports: when
    [_can_create] returns (either boolean) and every child process can
    be started, [_main] returns without raising, whatever the exit codes
    of the children, and the last thing it does is printing the result
    line. *)
Theorem import_run_always_reports :
  forall w user input_data program project b,
    session w = Ok (user, input_data, program, project) ->
    returns (_can_create program user) b ->
    (forall cmd env, exists r, spawn w cmd env = Ok r) ->
    fst (fhir_import._main w initial) = Ok tt /\
    exists evs,
      trace (snd (fhir_import._main w initial)) =
      evs ++ [result_line w (out (snd (fhir_import._main w initial)))].
Proof.
  intros w user input_data program project b Hs Hc Hsp.
  assert (Hok : fst (fhir_import._main w initial) = Ok tt).
  { destruct (session_project_id _ _ _ _ _ Hs) as (kvs & pid & Hi & _ & _).
    subst input_data.
    rewrite fhir_import_main_shape, (start_then_ok _ _ _ _ _ _ Hs).
    rewrite (bind_ok _ _ _ tt
               (import_steps_returns w kvs program project user b (fresh user) Hc Hsp)).
    reflexivity. }
  split; [exact Hok|].
  pose proof (fhir_import_prints_last w initial) as P. rewrite Hok in P.
  destruct P as [evs [Ht _]]. exists evs. exact Ht.
Qed.

(** A run in which the download ends with code 1 reports all the same. *)
Lemma import_run_always_reports_witness :
  fst (fhir_import._main (demo_world demo_user put_input 1 0 0) initial) = Ok tt.
Proof.
  apply (import_run_always_reports
           (demo_world demo_user put_input 1 0 0)
           demo_user put_input "aced" "study" true eq_refl
           (returns_of_indep _ _ initial (can_create_indep "aced" demo_user) eq_refl)).
  intros cmd env. destruct cmd as [|prog rest]; [eexists; reflexivity|].
  unfold demo_world, spawn.
  destruct (String.eqb_spec prog "gen3_util") as [->|N1]; [eexists; reflexivity|].
  destruct (String.eqb_spec prog "unzip") as [->|N2]; [eexists; reflexivity|].
  destruct prog as [|c0 prog]; [eexists; reflexivity|].
  exists (0%Z, "loaded", "").
  repeat match goal with
         | |- context [match ?x with _ => _ end] => destruct x
         end; try reflexivity; contradiction.
Defined.

Lemma get_pipeline_same_files w input_data program project user :
  respects same_files (get_pipeline w input_data program project user).
Proof.
  unfold get_pipeline, fhir_import_export._get, fhir_import_export._can_read,
    print_out.
  respects_tac same_prim.
Qed.

(** X12.  A run of [fhir_import_export] with a method that lowercases to
    ['get'] starts no child process and lists no files:
    [output['files']] is empty at the end of the run, whether the run
    returns or raises. *)
Theorem export_run_lists_no_files :
  forall w user input_data program project m,
    session w = Ok (user, input_data, program, project) ->
    dict_get input_data "method" = Ok (JStr m) ->
    lower m = "get" ->
    let final := snd (fhir_import_export._main w initial) in
    o_files (out final) = [] /\
    tools_started (trace final) = [] /\
    existsb is_subprocess (trace final) = false.
Proof.
  intros w user input_data program project m Hs Hd Hl. cbv zeta.
  rewrite (export_get_run _ _ _ _ _ _ Hs Hd Hl).
  pose proof (get_pipeline_same_files w input_data program project user (fresh user))
    as Hf.
  destruct (get_pipeline_no_subprocess w input_data program project user (fresh user))
    as [evs [Ht Hp]].
  unfold get_pipeline in Hf, Ht. unfold same_files in Hf.
  rewrite Hf, Ht. cbn [fresh out o_files trace app].
  split; [reflexivity|]. split.
  - apply (proj2 (no_subprocess_starts Load evs Hp)).
  - clear Ht. induction evs as [|ev evs IH]; [reflexivity|].
    simpl in Hp. apply andb_true_iff in Hp. destruct Hp as [H1 H2].
    simpl. destruct (is_subprocess ev); [discriminate H1|]. apply IH, H2.
Qed.

Lemma export_run_lists_no_files_witness :
  o_files (out (snd (fhir_import_export._main
                       (demo_world demo_user get_input 0 0 0) initial))) = [].
Proof.
  apply (export_run_lists_no_files
           (demo_world demo_user get_input 0 0 0)
           demo_user get_input "aced" "study" "Get" eq_refl eq_refl eq_refl).
Defined.

(** ** Runs that stop at the start *)

Lemma session_without_user w e :
  user_of w = Err e -> session w = Err e.
Proof.
  unfold user_of, session. intros H.
  rewrite (bind_pure _ _ _ (get_token_indep _) (get_token_pure _)) in H.
  rewrite (bind_pure _ _ _ (get_token_indep _) (get_token_pure _)).
  destruct (fst (_get_token w initial)) as [e0|token];
    [cbn in H |- *; congruence|].
  cbv beta iota in H |- *.
  rewrite (bind_pure _ _ _ (user_indep _ _) (user_pure _ _)).
  destruct (fst (_user w token initial)) as [e0|u];
    [cbn in H |- *; congruence | discriminate H].
Qed.

Lemma session_without_input w user e :
  user_of w = Ok user -> input_of w = Err e -> session w = Err e.
Proof.
  unfold user_of, input_of, session. intros Hu Hi.
  rewrite (bind_pure _ _ _ (get_token_indep _) (get_token_pure _)) in Hu.
  rewrite (bind_pure _ _ _ (get_token_indep _) (get_token_pure _)).
  destruct (fst (_get_token w initial)) as [e0|token]; [discriminate Hu|].
  cbv beta iota in Hu |- *.
  rewrite (bind_pure _ _ _ (user_indep _ _) (user_pure _ _)).
  destruct (fst (_user w token initial)) as [e0|u]; [discriminate Hu|].
  cbv beta iota.
  rewrite (bind_pure _ _ _ (input_data_indep _) (input_data_pure _)).
  rewrite Hi. reflexivity.
Qed.

Lemma both_stop_at_start w e :
  session w = Err e ->
  (fst (fhir_import._main w initial) = Err e /\
   trace (snd (fhir_import._main w initial)) = []) /\
  (fst (fhir_import_export._main w initial) = Err e /\
   trace (snd (fhir_import_export._main w initial)) = []).
Proof.
  intros Hs. split.
  - rewrite fhir_import_main_shape. apply (start_then_err w _ e Hs).
  - rewrite fhir_import_export_main_shape. apply (start_then_err w _ e Hs).
Qed.

(** X13.  Both scripts fetch the user document before they read the
    input data, and stop at the first failure without a result line and
    without any step outside the process: when the user document cannot
    be fetched [_main] raises that error; otherwise, when [INPUT_DATA] is
    not in the environment it raises [AssertionError('INPUT_DATA not
    found in environment')], and when [INPUT_DATA] does not parse it
    raises the error of [json.loads]. *)
Theorem runs_stop_at_the_start :
  forall w,
    let stops e :=
      (fst (fhir_import._main w initial) = Err e /\
       trace (snd (fhir_import._main w initial)) = []) /\
      (fst (fhir_import_export._main w initial) = Err e /\
       trace (snd (fhir_import_export._main w initial)) = []) in
    (forall e, user_of w = Err e -> stops e) /\
    (forall user,
        user_of w = Ok user ->
        env_lookup "INPUT_DATA" (environ w) = None ->
        stops (AssertionError "INPUT_DATA not found in environment")) /\
    (forall user text e,
        user_of w = Ok user ->
        env_lookup "INPUT_DATA" (environ w) = Some text ->
        json_loads w text = Err e ->
        stops e).
Proof.
  intros w. cbv zeta. split; [|split].
  - intros e H. apply both_stop_at_start, session_without_user, H.
  - intros user Hu He. apply both_stop_at_start.
    apply (session_without_input w user _ Hu).
    unfold input_of, _input_data. rewrite He. reflexivity.
  - intros user text e Hu He Hj. apply both_stop_at_start.
    apply (session_without_input w user _ Hu).
    unfold input_of, _input_data. rewrite He. cbn. exact Hj.
Qed.

Lemma runs_stop_at_the_start_witness :
  fst (fhir_import._main no_input_data initial)
  = Err (AssertionError "INPUT_DATA not found in environment").
Proof.
  apply (proj1 (proj2 (runs_stop_at_the_start no_input_data))
           demo_user eq_refl eq_refl).
Defined.

(** ** Children that cannot be started *)

(** A pipeline that raises takes the print with it. *)
Lemma then_print_raises w (m : M unit) s e :
  fst (m s) = Err e ->
  fst ((m ;; print_out w) s) = Err e /\
  trace (snd ((m ;; print_out w) s)) = trace (snd (m s)).
Proof.
  intros H. rewrite bind_run, H. split; reflexivity.
Qed.

(** X14.  The scripts catch nothing: when the permission is granted and
    an object id is given, a child process that cannot be started (its
    program is missing, say) ends the run of [fhir_import] with the
    exception of [subprocess.run], and no result line is printed.  This
    holds for the download tool, for the unzip tool after a download that
    ended with code 0, and for the load script after both ended with
    code 0. *)
Theorem unstartable_child_ends_the_run :
  forall w user input_data program project object_id e,
    session w = Ok (user, input_data, program, project) ->
    returns (_can_create program user) true ->
    dict_get input_data "object_id" = Ok object_id ->
    truthy object_id = true ->
    let dl := spawn w (download_cmd w object_id) [] in
    let uz := spawn w (unzip_cmd w object_id (study_dir project)) [] in
    let ld := spawn w load_cmd (load_env project (program ++ "-" ++ project)) in
    dl = Err e \/
    (exit_code dl = Some 0%Z /\ uz = Err e) \/
    (exit_code dl = Some 0%Z /\ exit_code uz = Some 0%Z /\ ld = Err e) ->
    fst (fhir_import._main w initial) = Err e /\
    existsb is_print (trace (snd (fhir_import._main w initial))) = false.
Proof.
  intros w user input_data program project object_id e Hs Hc Ho Hy.
  cbv zeta. intros Hcase.
  assert (Hraise : fst (import_steps w input_data program project user (fresh user))
                   = Err e).
  { rewrite (import_steps_granted _ _ _ _ _ _ (Hc (fresh user))).
    unfold _get_object_id. rewrite bind_run. cbn [lift fst snd].
    rewrite Ho, Hy, bind_run, download_and_unzip_run. cbv zeta.
    destruct Hcase as [H1 | [[H1 H2] | [H1 [H2 H3]]]].
    - rewrite H1. reflexivity.
    - destruct (spawn w (download_cmd w object_id) []) as [e1|[[c1 o1] x1]];
        [discriminate H1|].
      cbn [exit_code] in H1. inversion H1; subst c1. rewrite H2. reflexivity.
    - destruct (spawn w (download_cmd w object_id) []) as [e1|[[c1 o1] x1]];
        [discriminate H1|].
      destruct (spawn w (unzip_cmd w object_id (study_dir project)) [])
        as [e2|[[c2 o2] x2]]; [discriminate H2|].
      cbn [exit_code] in H1, H2. inversion H1; inversion H2; subst c1 c2.
      cbn [Z.eqb fst snd]. rewrite list_and_load_run. cbv zeta.
      rewrite H3. reflexivity. }
  assert (Hmain : fst (fhir_import._main w initial) = Err e).
  { rewrite fhir_import_main_shape, (start_then_ok _ _ _ _ _ _ Hs).
    apply (then_print_raises w _ _ e Hraise). }
  split; [exact Hmain|].
  pose proof (fhir_import_prints_last w initial) as P. rewrite Hmain in P.
  destruct P as [evs [Ht Hp]].
  rewrite Ht. cbn [initial trace app]. clear Ht.
  induction evs as [|ev evs IH]; [reflexivity|].
  simpl in Hp. apply andb_true_iff in Hp. destruct Hp as [H1 H2].
  simpl. unfold not_print in H1. destruct (is_print ev); [discriminate H1|].
  apply IH, H2.
Qed.

Lemma unstartable_child_ends_the_run_witness :
  fst (fhir_import._main no_tools initial) = Err OSError /\
  existsb is_print (trace (snd (fhir_import._main no_tools initial))) = false.
Proof.
  apply (unstartable_child_ends_the_run
           no_tools demo_user put_input "aced" "study" (JStr "guid-0") OSError
           eq_refl
           (returns_of_indep _ _ initial (can_create_indep "aced" demo_user) eq_refl)
           eq_refl eq_refl).
  left. reflexivity.
Defined.
